(** * tools/send-updates.py: change classification and notification composing

    A shallow embedding of the decision logic of [send-updates.py]
    ([diff_infos], [filter_bump_level], the reporting loop of [main] and the
    two mail composers), with the properties its specification states. *)

From Stdlib Require Import ZArith String Ascii DecimalString DecimalPos DecimalN.
From stdpp Require Import gmap strings list.

#[local] Set Warnings "-clear-no-such-hyp".

Local Open Scope string_scope.
Local Open Scope list_scope.
Local Open Scope Z_scope.

(** ** Python exceptions

    The functions of the script raise on a missing dictionary key, on an
    attribute of [None] and on a format code that does not fit its argument.
    A computation is either a value or the exception that propagates. *)

Inductive PyError := KeyError | AttributeError | TypeError | ValueError.

Inductive Exc (A : Type) :=
| Ok (a : A)
| Raise (e : PyError).
Arguments Ok {A} a.
Arguments Raise {A} e.

Definition exc_bind {A B} (m : Exc A) (k : A -> Exc B) : Exc B :=
  match m with
  | Ok a => k a
  | Raise e => Raise e
  end.

Notation "'let*' x := m 'in' k" := (exc_bind m (fun x => k))
  (at level 10, x name, m at level 100, k at level 200).

Definition is_ok {A} (m : Exc A) : Prop := exists a, m = Ok a.

#[global] Instance PyError_eq_dec : EqDecision PyError.
Proof. solve_decision. Defined.

#[global] Instance Exc_eq_dec `{EqDecision A} : EqDecision (Exc A).
Proof. solve_decision. Defined.

(** ** The enumerations of [xeplib]

    [xeplib] is imported by the script and is not part of it. *)

Module Status.
(** Modelled from the spec: the [Status] enumeration of [xeplib]. The
    script names four members; the specification (section 3) says there are
    "other terminal/accepted statuses", which [Other] stands for. *)
Inductive t :=
| PROTO
| EXPERIMENTAL
| PROPOSED
| DEFERRED
| Other (name : string).

#[global] Instance eq_dec : EqDecision t.
Proof. solve_decision. Defined.
End Status.

Module Action.
(** Modelled from the spec: the [Action] enumeration of [xeplib]. The
    script names five members; the specification (section 3) says there are
    "others derived generically from status", which [Other] stands for. *)
Inductive t :=
| PROTO
| NEW
| UPDATE
| LAST_CALL
| DEFER
| Other (name : string).

#[global] Instance eq_dec : EqDecision t.
Proof. solve_decision. Defined.
End Action.

(** What the script uses of [xeplib] besides the members: the class method
    [Action.fromstatus] (applied to whatever [new["status"]] holds, possibly
    [None]) and the [value] of a member. *)
Class XepLib := {
  fromstatus : option Status.t -> Exc Action.t;
  action_value : Action.t -> string;
  status_value : Status.t -> string;
}.

(** ** Document records

    A record is a Python [dict] with a fixed set of string keys. A key is
    absent ([Missing]), bound to [None] ([PyNone]) or bound to a value. *)

Inductive Field (A : Type) :=
| Missing
| PyNone
| Val (a : A).
Arguments Missing {A}.
Arguments PyNone {A}.
Arguments Val {A} a.

#[global] Instance Field_eq_dec `{EqDecision A} : EqDecision (Field A).
Proof. solve_decision. Defined.

(** [d[k]]: the value, [None] included, or [KeyError]. *)
Definition getitem {A} (f : Field A) : Exc (option A) :=
  match f with
  | Missing => Raise KeyError
  | PyNone => Ok None
  | Val a => Ok (Some a)
  end.

(** [d.get(k)]: the value, or [None] for an absent key. *)
Definition get {A} (f : Field A) : option A :=
  match f with
  | Missing | PyNone => None
  | Val a => Some a
  end.

(** The identifier of a document: the number of an accepted XEP, or the name
    of a ProtoXEP. [dummy_info] is called with both. *)
Inductive Ident :=
| XepNumber (n : Z)
| ProtoName (s : string).

#[global] Instance Ident_eq_dec : EqDecision Ident.
Proof. solve_decision. Defined.

Record Revision := {
  version : Field string;
  remark : Field string;
  initials : Field string;
}.

#[global] Instance Revision_eq_dec : EqDecision Revision.
Proof. solve_decision. Defined.

Record Info := {
  status : Field Status.t;
  accepted : Field bool;
  number : Field Ident;
  protoname : Field string;
  title : Field string;
  abstract : Field string;
  type : Field string;
  approver : Field string;
  last_call : Field string;
  last_revision : Field Revision;
}.

#[global] Instance Info_eq_dec : EqDecision Info.
Proof. solve_decision. Defined.

Definition dummy_info (number : Ident) : Info :=
  {| status := PyNone;
     accepted := Val false;
     number := Val number;
     protoname := Missing;
     title := Missing;
     abstract := Missing;
     type := Missing;
     approver := Missing;
     last_call := Missing;
     last_revision := Missing |}.

(** [info.get("last_revision", {}).get("version")] *)
Definition extract_version (info : Info) : Exc (option string) :=
  match last_revision info with
  | Missing => Ok None
  | PyNone => Raise AttributeError
  | Val r => Ok (get (version r))
  end.

(** ** The change classifier *)

Section Classifier.
Context `{XepLib}.

Definition diff_infos (old new : Info) : Exc (option Action.t) :=
  let* old_status := getitem (status old) in
  let* new_status := getitem (status new) in
  if bool_decide (old_status <> new_status) then
    if bool_decide (new_status = Some Status.PROTO) then
      Ok (Some Action.PROTO)
    else if bool_decide (old_status = None) then
      Ok (Some Action.NEW)
    else if bool_decide (old_status = Some Status.DEFERRED)
            && bool_decide (new_status = Some Status.EXPERIMENTAL) then
      Ok (Some Action.UPDATE)
    else if bool_decide (old_status = Some Status.PROPOSED)
            && bool_decide (new_status = Some Status.EXPERIMENTAL) then
      Ok None
    else
      let* action := fromstatus new_status in
      Ok (Some action)
  else
    let* last_call_differs :=
      (if bool_decide (old_status = Some Status.PROPOSED) then
         let* old_last_call := getitem (last_call old) in
         let* new_last_call := getitem (last_call new) in
         Ok (bool_decide (old_last_call <> new_last_call))
       else Ok false) in
    if last_call_differs then Ok (Some Action.LAST_CALL)
    else
      let* old_version := extract_version old in
      let* new_version := extract_version new in
      if bool_decide (old_version <> new_version) then
        Ok (Some Action.UPDATE)
      else Ok None.

(** *** The algorithm of the specification, section 4.1

    The specification gives the classifier as priority-ordered rules, the
    first rule whose condition holds deciding the outcome. *)

Inductive Outcome :=
| Emit (a : Action.t)
| NoAction
| FromStatus (s : option Status.t).

Fixpoint first_match (rules : list (bool * Outcome)) : Outcome :=
  match rules with
  | [] => NoAction
  | (condition, outcome) :: rest =>
      if condition then outcome else first_match rest
  end.

Definition outcome_result (o : Outcome) : Exc (option Action.t) :=
  match o with
  | Emit a => Ok (Some a)
  | NoAction => Ok None
  | FromStatus s => let* a := fromstatus s in Ok (Some a)
  end.

(** The version string of the last revision, [None] when there is none. *)
Definition version_of (info : Info) : option string :=
  match get (last_revision info) with
  | Some r => get (version r)
  | None => None
  end.

(** Rules 1a to 1e, for records whose statuses differ. *)
Definition status_change_rules (old new : Info) : list (bool * Outcome) :=
  let old_status := get (status old) in
  let new_status := get (status new) in
  [ (bool_decide (new_status = Some Status.PROTO), Emit Action.PROTO);
    (bool_decide (old_status = None), Emit Action.NEW);
    (bool_decide (old_status = Some Status.DEFERRED /\
                  new_status = Some Status.EXPERIMENTAL),
     Emit Action.UPDATE);
    (bool_decide (old_status = Some Status.PROPOSED /\
                  new_status = Some Status.EXPERIMENTAL),
     NoAction);
    (true, FromStatus new_status) ].

(** Rules 2 to 4, for records of one status. *)
Definition same_status_rules (old new : Info) : list (bool * Outcome) :=
  [ (bool_decide (get (status old) = Some Status.PROPOSED /\
                  get (last_call old) <> get (last_call new)),
     Emit Action.LAST_CALL);
    (bool_decide (version_of old <> version_of new), Emit Action.UPDATE);
    (true, NoAction) ].

Definition classify (old new : Info) : Exc (option Action.t) :=
  outcome_result
    (if bool_decide (get (status old) <> get (status new))
     then first_match (status_change_rules old new)
     else first_match (same_status_rules old new)).

(** The shape of the records the script compares: [status] is always
    bound (to [None] in [dummy_info]), [last_revision] is absent or a
    dictionary, and a proposed document has a [last_call] entry (which may
    hold [None]). *)
Definition wf_info (info : Info) : Prop :=
  status info <> Missing /\
  last_revision info <> PyNone /\
  (status info = Val Status.PROPOSED -> last_call info <> Missing).

End Classifier.

(** ** The significance filter *)

(** [s.split(sep)] for a separator of one character: the pieces between the
    separators, empty pieces included, so never an empty list. [split_go]
    returns the first piece and the pieces after it. *)
Fixpoint split_go (sep : ascii) (s : string) : string * list string :=
  match s with
  | EmptyString => (EmptyString, [])
  | String c rest =>
      let (piece, pieces) := split_go sep rest in
      if Ascii.eqb c sep then (EmptyString, piece :: pieces)
      else (String c piece, pieces)
  end.

Definition split (sep : ascii) (s : string) : list string :=
  let (piece, pieces) := split_go sep s in piece :: pieces.

(** [s] is [None] when the record has no version: [None.split] raises. *)
Definition decompose_version (s : option string) : Exc (list string) :=
  match s with
  | None => Raise AttributeError
  | Some s =>
      let version_info := split "." s in
      Ok (if decide (length version_info < 3)%nat
          then version_info ++ replicate (3 - length version_info) "0"
          else version_info)
  end.

Definition filter_bump_level (old_version new_version : option string)
    (include_editorial include_non_editorial : bool) : Exc bool :=
  let* is_editorial :=
    match old_version with
    | None => Ok false
    | Some _ =>
        let* old_version_d := decompose_version old_version in
        let* new_version_d := decompose_version new_version in
        Ok (bool_decide (take 2 old_version_d = take 2 new_version_d))
    end in
  if is_editorial && negb include_editorial then Ok false
  else if negb is_editorial && negb include_non_editorial then Ok false
  else Ok true.

(** The [i]-th component of a version as the specification reads it (section
    3): the [i]-th dot-separated piece, [0] when the version has fewer. *)
Definition component (i : nat) (v : string) : string :=
  nth i (split "." v) "0".

(** What [filter_bump_level] answers once the change is classified. *)
Definition permitted (is_editorial include_editorial include_non_editorial : bool)
  : bool :=
  if is_editorial then include_editorial else include_non_editorial.

(** ** The reporting loop of [main] *)

Record Args := {
  include_protoxep : bool;
  include_editorial : bool;
  include_non_editorial : bool;
}.

(** An entry of the [updates] list. *)
Definition Update : Type := Ident * Action.t * Info.

(** [d[k]] on a snapshot. *)
Definition dict_getitem `{Countable K} {V} (d : gmap K V) (k : K) : Exc V :=
  match d !! k with
  | Some v => Ok v
  | None => Raise KeyError
  end.

(** A [for] loop over [l] whose body updates the state [s] or raises. *)
Fixpoint for_each {A S} (body : A -> S -> Exc S) (l : list A) (s : S) : Exc S :=
  match l with
  | [] => Ok s
  | x :: rest => let* s' := body x s in for_each body rest s'
  end.

(** A loop body that queues nothing or one entry, under the identifier of
    the element it is run on. *)
Definition queues_at_most_one {A} (body : A -> list Update -> Exc (list Update))
    (ident : A -> Ident) : Prop :=
  forall x s t, body x s = Ok t ->
    t = s \/ exists action info, t = s ++ [(ident x, action, info)].

Section Main.
Context `{XepLib}.
Variable args : Args.
Variables old_accepted new_accepted : gmap Z Info.
Variables old_proto new_proto : gmap string Info.

Definition common_xeps : gset Z := dom old_accepted ∩ dom new_accepted.
Definition added_xeps : gset Z := dom new_accepted ∖ dom old_accepted.
Definition added_protos : gset string := dom new_proto ∖ dom old_proto.

(** The body of [for common_xep in common_xeps]; [continue] leaves
    [updates] as it is. [filter_bump_level] is the right operand of [and]:
    it is called only when the action is [UPDATE]. *)
Definition common_body (common_xep : Z) (updates : list Update)
  : Exc (list Update) :=
  let* old_info := dict_getitem old_accepted common_xep in
  let* new_info := dict_getitem new_accepted common_xep in
  let* action := diff_infos old_info new_info in
  let* skip :=
    (if bool_decide (action = Some Action.UPDATE) then
       let* old_version := extract_version old_info in
       let* new_version := extract_version new_info in
       let* keep := filter_bump_level old_version new_version
                      (include_editorial args) (include_non_editorial args) in
       Ok (negb keep)
     else Ok false) in
  if skip then Ok updates
  else
    match action with
    | Some action => Ok (updates ++ [(XepNumber common_xep, action, new_info)])
    | None => Ok updates
    end.

(** The body of [for added_xep in added_xeps]. *)
Definition added_body (added_xep : Z) (updates : list Update)
  : Exc (list Update) :=
  let old_info := dummy_info (XepNumber added_xep) in
  let* new_info := dict_getitem new_accepted added_xep in
  let* action := diff_infos old_info new_info in
  match action with
  | Some action => Ok (updates ++ [(XepNumber added_xep, action, new_info)])
  | None => Ok updates
  end.

(** The body of [for added_proto in added_protos]. *)
Definition proto_body (added_proto : string) (updates : list Update)
  : Exc (list Update) :=
  let old_info := dummy_info (ProtoName "xxxx") in
  let* new_info := dict_getitem new_proto added_proto in
  let* action := diff_infos old_info new_info in
  match action with
  | Some action => Ok (updates ++ [(ProtoName added_proto, action, new_info)])
  | None => Ok updates
  end.

(** [updates] when the three loops of [main] are done. A Python [set] is
    iterated in an order of its own; [elements] fixes one. *)
Definition main_updates : Exc (list Update) :=
  let updates := [] in
  let* updates := for_each common_body (elements common_xeps) updates in
  let* updates := for_each added_body (elements added_xeps) updates in
  if include_protoxep args then
    for_each proto_body (elements added_protos) updates
  else Ok updates.

(** The identifiers a loop of [main] passes to [diff_infos]. *)
Definition visited : list Ident :=
  (XepNumber <$> elements common_xeps)
  ++ (XepNumber <$> elements added_xeps)
  ++ (if include_protoxep args then ProtoName <$> elements added_protos
      else []).

End Main.

(** ** Notification composing *)

Definition XEP_URL_PREFIX : string := "https://xmpp.org/extensions/".

(** A format string, cut into its literal text and its replacement fields
    (the fields the templates of the script use). *)
Inductive Piece :=
| Lit (s : string)
| InfoTitle                 (* {info[title]} *)
| InfoAbstract              (* {info[abstract]} *)
| InfoLastCall              (* {info[last_call]} *)
| InfoNumber04d             (* {info[number]:04d} *)
| InfoLastRevisionVersion   (* {info[last_revision][version]} *)
| Url                       (* {url} *)
| Approver                  (* {approver} *)
| Changelog                 (* {changelog} *)
| ActionValue.              (* {action.value} *)

#[global] Instance Piece_eq_dec : EqDecision Piece.
Proof. solve_decision. Defined.

Definition Template : Type := list Piece.

Definition MAIL_PROTO_TEMPLATE : Template :=
  [ Lit "The XMPP Extensions Editor has received a proposal for a new XEP.

Title: "; InfoTitle; Lit "
Abstract:
"; InfoAbstract; Lit "

URL: "; Url; Lit "

The "; Approver; Lit " will decide in the next two weeks whether to accept this ";
    Lit "proposal as an official XEP." ].

Definition SUBJECT_PROTO_TEMPLATE : Template :=
  [ Lit "Proposed XMPP Extension: "; InfoTitle ].

Definition MAIL_LAST_CALL_TEMPLATE : Template :=
  [ Lit "This message constitutes notice of a Last Call for comments on ";
    Lit "XEP-"; InfoNumber04d; Lit ".

Title: "; InfoTitle; Lit "
Abstract:
"; InfoAbstract; Lit "

URL: "; Url; Lit "

This Last Call begins today and shall end at the close of business on ";
    InfoLastCall; Lit ".

Please consider the following questions during this Last Call and send your ";
    Lit "feedback to the standards@xmpp.org discussion list:

1. Is this specification needed to fill gaps in the XMPP protocol stack or to ";
    Lit "clarify an existing protocol?

2. Does the specification solve the problem stated in the introduction and ";
    Lit "requirements?

3. Do you plan to implement this specification in your code? If not, why not?

4. Do you have any security concerns related to this specification?

5. Is the specification accurate and clearly written?

Your feedback is appreciated!
" ].

Definition STALENOTE : string :=
  "

Note: The information in the XEP list at https://xmpp.org/extensions/ is "
  +:+ "updated by a separate automated process and may be stale at the time this "
  +:+ "email is sent. The XEP documents linked herein are up-to-date.".

Definition MAIL_NONPROTO_TEMPLATE : Template :=
  [ Lit "Version "; InfoLastRevisionVersion; Lit " of XEP-"; InfoNumber04d;
    Lit " ("; InfoTitle; Lit ") has been released.

Abstract:
"; InfoAbstract; Lit "

Changelog:
"; Changelog; Lit "

URL: "; Url ] ++ [ Lit STALENOTE ].

Definition MAIL_DEFER_TEMPLATE : Template :=
  [ Lit "XEP-"; InfoNumber04d; Lit " ("; InfoTitle;
    Lit ") has been Deferred because of inactivity.

Abstract:
"; InfoAbstract; Lit "

URL: "; Url; Lit "

If and when a new revision of this XEP is published, its status will be ";
    Lit "changed back to Experimental." ] ++ [ Lit STALENOTE ].

Definition SUBJECT_NONPROTO_TEMPLATE : Template :=
  [ ActionValue; Lit ": XEP-"; InfoNumber04d; Lit " ("; InfoTitle; Lit ")" ].

(** [str(v)] for a string or [None]. *)
Definition py_str (v : option string) : string :=
  match v with
  | None => "None"
  | Some s => s
  end.

(** The truth value of a string or [None]. *)
Definition truthy (v : option string) : bool :=
  match v with
  | None => false
  | Some s => negb (bool_decide (s = EmptyString))
  end.

Fixpoint zeros (n : nat) : string :=
  match n with
  | O => EmptyString
  | S n' => String "0" (zeros n')
  end.

(** [s.zfill(width)] for a string of digits. *)
Definition zfill (width : nat) (s : string) : string :=
  zeros (width - String.length s) +:+ s.

Definition digits (n : N) : string := NilZero.string_of_uint (N.to_uint n).

(** ["{:04d}".format(n)]: the sign counts in the width of four. *)
Definition format_04d_int (n : Z) : string :=
  if n <? 0 then String "-" (zfill 3 (digits (Z.abs_N n)))
  else zfill 4 (digits (Z.abs_N n)).

(** The format code [04d] on what [info["number"]] may hold. *)
Definition format_04d (number : option Ident) : Exc string :=
  match number with
  | None => Raise TypeError
  | Some (XepNumber n) => Ok (format_04d_int n)
  | Some (ProtoName _) => Raise ValueError
  end.

(** The keyword arguments of [format]; a composer binds some of them. *)
Record Kwargs := {
  kw_info : Info;
  kw_approver : Field string;
  kw_url : Field string;
  kw_changelog : Field string;
  kw_action : Field Action.t;
}.

(** A value held by a dictionary. *)
Definition bound {A} (v : option A) : Field A :=
  match v with
  | None => PyNone
  | Some a => Val a
  end.

Section Composer.
Context `{XepLib}.

Definition format_piece (kwargs : Kwargs) (p : Piece) : Exc string :=
  match p with
  | Lit s => Ok s
  | InfoTitle => let* v := getitem (title (kw_info kwargs)) in Ok (py_str v)
  | InfoAbstract =>
      let* v := getitem (abstract (kw_info kwargs)) in Ok (py_str v)
  | InfoLastCall =>
      let* v := getitem (last_call (kw_info kwargs)) in Ok (py_str v)
  | InfoNumber04d =>
      let* v := getitem (number (kw_info kwargs)) in format_04d v
  | InfoLastRevisionVersion =>
      let* r := getitem (last_revision (kw_info kwargs)) in
      match r with
      | None => Raise TypeError
      | Some r => let* v := getitem (version r) in Ok (py_str v)
      end
  | Url => let* v := getitem (kw_url kwargs) in Ok (py_str v)
  | Approver => let* v := getitem (kw_approver kwargs) in Ok (py_str v)
  | Changelog => let* v := getitem (kw_changelog kwargs) in Ok (py_str v)
  | ActionValue =>
      let* v := getitem (kw_action kwargs) in
      match v with
      | None => Raise AttributeError
      | Some a => Ok (action_value a)
      end
  end.

(** [template.format] on the keyword arguments: the fields are looked up from left to
    right, the first failure propagates. *)
Fixpoint format (template : Template) (kwargs : Kwargs) : Exc string :=
  match template with
  | [] => Ok EmptyString
  | p :: rest =>
      let* s := format_piece kwargs p in
      let* r := format rest kwargs in
      Ok (s +:+ r)
  end.

End Composer.

(** *** Messages

    An [EmailMessage] as the composers use it: headers in the order they are
    assigned, each with the string that [mail[name]] reads, and the text of
    the body. The MIME headers that [set_content] adds are not part of this
    model. *)
Record EmailMessage := {
  headers : list (string * string);
  content : option string;
}.

Definition new_message : EmailMessage := {| headers := []; content := None |}.

(** The header registry of the [email] package of the standard library,
    under the policy of an [EmailMessage]: what the assignment
    [mail[name] = value] makes of a string or of [None]. It is the string
    that the header holds, and that [mail[name]] reads, or the exception
    that the assignment raises. The string held need not be the value: the
    registry decodes the encoded words of RFC 2047 in it, it holds the empty
    string for [None], and it raises [ValueError] for a value with a line
    break in it. *)
Class HeaderRegistry :=
  header_store_parse : string -> option string -> Exc string.

(** [mail[name] = value], for a string or [None] *)
Definition set_header `{HeaderRegistry} (name : string) (value : option string)
    (mail : EmailMessage) : Exc EmailMessage :=
  let* stored := header_store_parse name value in
  Ok {| headers := headers mail ++ [(name, stored)];
        content := content mail |}.

(** [mail[name] = value] for a value that is no string, a [datetime] or a
    list of addresses: the registry formats it, and no check of line breaks
    is made; [stored] is the string it is formatted to. *)
Definition add_header (name stored : string) (mail : EmailMessage)
  : EmailMessage :=
  {| headers := headers mail ++ [(name, stored)]; content := content mail |}.

(** [mail[name]]: the first header of that name, [None] when there is none. *)
Fixpoint lookup_header (name : string) (hs : list (string * string))
  : option string :=
  match hs with
  | [] => None
  | (n, v) :: rest =>
      if String.eqb n name then Some v else lookup_header name rest
  end.

Definition get_header (name : string) (mail : EmailMessage) : option string :=
  lookup_header name (headers mail).

Definition set_content (text : string) (mail : EmailMessage) : EmailMessage :=
  {| headers := headers mail; content := Some text |}.

(** [textwrap.wrap] of the standard library. *)
Class TextWrap := textwrap_wrap : string -> list string.

Definition LF : ascii := "010"%char.

Section Mails.
Context `{XepLib} `{TextWrap} `{HeaderRegistry}.

(** The lines of the wrapped text: an empty line is kept, any other line is
    replaced by what [textwrap.wrap] makes of it. *)
Definition wrapped_lines (text : string) : list string :=
  concat ((fun line => if bool_decide (line = EmptyString) then [line]
                       else textwrap_wrap line)
          <$> split LF text).

Definition wraptext (text : string) : string :=
  String.concat (String LF EmptyString) (wrapped_lines text).

Definition proto_kwargs (info : Info) : Exc Kwargs :=
  let* approver := getitem (approver info) in
  let* protoname := getitem (protoname info) in
  Ok {| kw_info := info;
        kw_approver := bound approver;
        kw_url := Val (XEP_URL_PREFIX +:+ "inbox/" +:+ py_str protoname
                       +:+ ".html");
        kw_changelog := Missing;
        kw_action := Missing |}.

Definition status_dot_value (s : option Status.t) : Exc string :=
  match s with
  | None => Raise AttributeError
  | Some s => Ok (status_value s)
  end.

Definition make_proto_mail (info : Info) : Exc EmailMessage :=
  let* kwargs := proto_kwargs info in
  let mail := new_message in
  let* subject := format SUBJECT_PROTO_TEMPLATE kwargs in
  let* mail := set_header "Subject" (Some subject) mail in
  let* mail := set_header "XSF-XEP-Action" (Some "PROTO") mail in
  let* title := getitem (title info) in
  let* mail := set_header "XSF-XEP-Title" title mail in
  let* type := getitem (type info) in
  let* mail := set_header "XSF-XEP-Type" type mail in
  let* status := getitem (status info) in
  let* value := status_dot_value status in
  let* mail := set_header "XSF-XEP-Status" (Some value) mail in
  let* mail := set_header "XSF-XEP-Url" (get (kw_url kwargs)) mail in
  let* mail := set_header "XSF-XEP-Approver" (get (kw_approver kwargs)) mail in
  let* text := format MAIL_PROTO_TEMPLATE kwargs in
  Ok (set_content (wraptext text) mail).

Definition changelog_of (info : Info) : string :=
  let last_revision := get (last_revision info) in
  let changelog := "(see in-document revision history)" in
  match last_revision with
  | Some last_revision =>
      let remark := get (remark last_revision) in
      let initials := get (initials last_revision) in
      if truthy remark && truthy initials
      then py_str remark +:+ " (" +:+ py_str initials +:+ ")"
      else changelog
  | None => changelog
  end.

Definition nonproto_kwargs (action : Action.t) (info : Info) : Exc Kwargs :=
  let changelog := changelog_of info in
  let* number := getitem (number info) in
  let* number04 := format_04d number in
  Ok {| kw_info := info;
        kw_approver := Missing;
        kw_url := Val (XEP_URL_PREFIX +:+ "xep-" +:+ number04 +:+ ".html");
        kw_changelog := Val changelog;
        kw_action := Val action |}.

Definition body_template_of (action : Action.t) : Template :=
  if bool_decide (action = Action.DEFER) then MAIL_DEFER_TEMPLATE
  else if bool_decide (action = Action.LAST_CALL) then MAIL_LAST_CALL_TEMPLATE
  else MAIL_NONPROTO_TEMPLATE.

Definition make_nonproto_mail (action : Action.t) (info : Info)
  : Exc EmailMessage :=
  let* kwargs := nonproto_kwargs action info in
  let body_template := body_template_of action in
  let mail := new_message in
  let* subject := format SUBJECT_NONPROTO_TEMPLATE kwargs in
  let* mail := set_header "Subject" (Some subject) mail in
  let* mail := set_header "XSF-XEP-Action" (Some (action_value action)) mail in
  let* title := getitem (title info) in
  let* mail := set_header "XSF-XEP-Title" title mail in
  let* type := getitem (type info) in
  let* mail := set_header "XSF-XEP-Type" type mail in
  let* status := getitem (status info) in
  let* value := status_dot_value status in
  let* mail := set_header "XSF-XEP-Status" (Some value) mail in
  let* number := getitem (number info) in
  let* number04 := format_04d number in
  let* mail := set_header "XSF-XEP-Number" (Some number04) mail in
  let* mail := set_header "XSF-XEP-Url" (get (kw_url kwargs)) mail in
  let* text := format body_template kwargs in
  Ok (set_content (wraptext text) mail).

(** The dispatch of [main] on a queued update. *)
Definition make_mail (action : Action.t) (info : Info) : Exc EmailMessage :=
  if bool_decide (action = Action.PROTO) then make_proto_mail info
  else make_nonproto_mail action info.

End Mails.

(** *** Reading a message back *)

(** [s] without the prefix [pre], when it starts with it. *)
Fixpoint strip_prefix (pre s : string) : option string :=
  match pre, s with
  | EmptyString, _ => Some s
  | String a pre', String b s' =>
      if Ascii.eqb a b then strip_prefix pre' s' else None
  | String _ _, EmptyString => None
  end.



(** The sentence of [STALENOTE], after its two line feeds. *)
Definition STALENOTE_LINE : string :=
  "Note: The information in the XEP list at https://xmpp.org/extensions/ is "
  +:+ "updated by a separate automated process and may be stale at the time this "
  +:+ "email is sent. The XEP documents linked herein are up-to-date.".

Definition ends_with (suffix s : string) : Prop :=
  exists pre, s = pre +:+ suffix.

(** [sub in s] *)
Fixpoint contains (sub s : string) : bool :=
  String.prefix sub s
  || match s with
     | EmptyString => false
     | String _ rest => contains sub rest
     end.

(** The literal text of a format string, its replacement fields left out. *)
Fixpoint literal_text (template : Template) : string :=
  match template with
  | [] => EmptyString
  | Lit s :: rest => s +:+ literal_text rest
  | _ :: rest => literal_text rest
  end.

(** [int(s)] on an optional sign and decimal digits. *)
Definition parse_int (s : string) : option Z :=
  match s with
  | EmptyString => None
  | String a s' =>
      if Ascii.eqb a "-"
      then (fun d => - Z.of_N (N.of_uint d)) <$> NilZero.uint_of_string s'
      else (fun d => Z.of_N (N.of_uint d)) <$> NilZero.uint_of_string s
  end.


(** ** Sending the queued notifications

    The rest of [main]: the two early exits, the connection and the loop
    that composes, confirms and sends. *)

(** An answer to "Send this email? [y]es, [n]o, [a]bort". *)
Inductive Choice := Yes | No | Abort.

#[global] Instance Choice_eq_dec : EqDecision Choice.
Proof. solve_decision. Defined.

(** Modelled from the spec: [choose] of [xeplib], called with the choices
    [yna] and [eof="a"]. It returns one of the three choices, and the
    specification (section 6) says that "end-of-input on the prompt is
    treated as abort". The answers still to come are the input; the answers
    left are returned with the choice. *)
Definition choose (answers : list Choice) : Choice * list Choice :=
  match answers with
  | [] => (Abort, [])
  | choice :: rest => (choice, rest)
  end.

(** The connection: the one of [make_fake_smtpconn] or a real one, the
    messages that [send_message] has taken so far, and whether [close] was
    called. *)
Record Smtp := {
  fake : bool;
  sent : list EmailMessage;
  closed : bool;
}.

(** The other end of the connection: whether [smtpconn.send_message(mail)]
    returns, the connection being as it is, or raises. *)
Class Transport := delivers : Smtp -> EmailMessage -> bool.

(** [smtpconn.send_message(mail)]: the connection after the call, [None]
    when the call raises. *)
Definition send_message `{Transport} (mail : EmailMessage) (conn : Smtp)
  : option Smtp :=
  if delivers conn mail
  then Some {| fake := fake conn; sent := sent conn ++ [mail];
               closed := closed conn |}
  else None.

Definition close (conn : Smtp) : Smtp :=
  {| fake := fake conn; sent := sent conn; closed := true |}.

(** How a run ends: the loop is done, [sys.exit(code)], an exception of the
    classifier, of the composers or of a header assignment, the
    [configparser] error of [config.get("smtp", "from")], or an exception of
    the connection: one that [send_message] raises, or one that
    [make_smtpconn] raises and [main] does not catch. *)
Inductive Ending :=
| Finished
| SysExit (code : Z)
| Raised (e : PyError)
| RaisedConfig
| RaisedSmtp.

(** The three headers [main] adds to a composed mail; [date] and [to] are
    what the header holds for [datetime.utcnow()] and for the list
    [args.to], [from] is the string of the configuration. *)
Definition stamp `{HeaderRegistry} (date from to : string)
    (mail : EmailMessage) : Exc EmailMessage :=
  let mail := add_header "Date" date mail in
  let* mail := set_header "From" (Some from) mail in
  Ok (add_header "To" to mail).

(** What [make_smtpconn(config)] does: it returns the connection, it raises
    [NoSectionError] or [NoOptionError], or it raises another exception. *)
Inductive Connect := Connected | NotConfigured | ConnectFailed.

Record RunArgs := {
  run_args : Args;
  ask_confirmation : bool;
  dry_run : bool;
}.

Section Sending.
Context `{XepLib} `{TextWrap} `{HeaderRegistry} `{Transport}.

(** [date] and [to] as in [stamp]; [from] is [None] when the configuration
    has no [from] option in a section [smtp]. *)
Variables (date to : string) (from : option string).

(** The loop [for id_, action, info in updates] of [main]. The date is
    assigned before the configuration is read, and that assignment does not
    raise. *)
Fixpoint send_loop (ask_confirmation : bool) (updates : list Update)
    (answers : list Choice) (smtpconn : Smtp) : Ending * Smtp :=
  match updates with
  | [] => (Finished, smtpconn)
  | (id_, action, info) :: rest =>
      match make_mail action info with
      | Raise e => (Raised e, smtpconn)
      | Ok mail =>
          match from with
          | None => (RaisedConfig, smtpconn)
          | Some from =>
              match stamp date from to mail with
              | Raise e => (Raised e, smtpconn)
              | Ok mail =>
                  if ask_confirmation then
                    match choose answers with
                    | (No, answers) =>
                        send_loop ask_confirmation rest answers smtpconn
                    | (Abort, _) => (SysExit 4, smtpconn)
                    | (Yes, answers) =>
                        match send_message mail smtpconn with
                        | None => (RaisedSmtp, smtpconn)
                        | Some smtpconn =>
                            send_loop ask_confirmation rest answers smtpconn
                        end
                    end
                  else
                    match send_message mail smtpconn with
                    | None => (RaisedSmtp, smtpconn)
                    | Some smtpconn =>
                        send_loop ask_confirmation rest answers smtpconn
                    end
              end
          end
      end
  end.

(** [try: ... finally: smtpconn.close()] *)
Definition send_updates (ask_confirmation : bool) (updates : list Update)
    (answers : list Choice) (smtpconn : Smtp) : Ending * Smtp :=
  let (ending, smtpconn) :=
    send_loop ask_confirmation updates answers smtpconn in
  (ending, close smtpconn).

(** The mails of the queue that compose and take the three headers, in the
    order of the queue. *)
Definition stamped (from : string) (updates : list Update)
  : list EmailMessage :=
  omap (fun u : Update =>
          match make_mail u.1.2 u.2 with
          | Ok mail =>
              match stamp date from to mail with
              | Ok mail => Some mail
              | Raise _ => None
              end
          | Raise _ => None
          end) updates.

(** An update whose mail is composed. *)
Definition composes (u : Update) : Prop := is_ok (make_mail u.1.2 u.2).

(** The mails of the updates [pre] that were answered [y], [answers] being
    the answers to their prompts. *)
Definition confirmed (from : string) (pre : list Update)
    (answers : list Choice) : list EmailMessage :=
  (filter (fun p : Choice * EmailMessage => p.1 = Yes)
     (zip answers (stamped from pre))).*2.

End Sending.

Section Run.
Context `{XepLib} `{TextWrap} `{HeaderRegistry} `{Transport}.
Variables (date to : string).

(** [Config] is the [ConfigParser] with what the script and [xeplib] do
    with it: [interactively_extend_smtp_config] fills it in,
    [make_smtpconn] makes the connection from it or raises, [config_from]
    is [config.get("smtp", "from")]. *)
Context {Config : Type}.
Variable interactively_extend_smtp_config : Config -> Config.
Variable make_smtpconn : Config -> Connect.
Variable config_from : Config -> option string.

(** [main] from the loading of the two snapshots on, with the snapshots as
    [load_xepinfos] returns them: the queue, the connection, the loop. The
    connection is [None] when the run ends before one is made. Of the
    exceptions of [make_smtpconn], [main] catches [NoSectionError] and
    [NoOptionError] only. *)
Definition main_send (r : RunArgs) (can_be_interactive : bool)
    (config : Config)
    (old_accepted new_accepted : gmap Z Info)
    (old_proto new_proto : gmap string Info)
    (answers : list Choice) : Ending * option Smtp :=
  let ask_confirmation := if dry_run r then false else ask_confirmation r in
  match main_updates (run_args r)
          old_accepted new_accepted old_proto new_proto with
  | Raise e => (Raised e, None)
  | Ok updates =>
      if dry_run r then
        let smtpconn := {| fake := true; sent := []; closed := false |} in
        let (ending, smtpconn) :=
          send_updates date to (config_from config)
            ask_confirmation updates answers smtpconn in
        (ending, Some smtpconn)
      else
        let config :=
          if can_be_interactive
          then interactively_extend_smtp_config config else config in
        match make_smtpconn config with
        | Connected =>
            let smtpconn := {| fake := false; sent := []; closed := false |} in
            let (ending, smtpconn) :=
              send_updates date to (config_from config)
                ask_confirmation updates answers smtpconn in
            (ending, Some smtpconn)
        | NotConfigured => (SysExit 3, None)
        | ConnectFailed => (RaisedSmtp, None)
        end
  end.

(** [main] from the parsed arguments on: [--dry-run] implies [-y], and
    asking for confirmation needs a terminal. *)
Definition main_run (r : RunArgs) (can_be_interactive : bool)
    (config : Config)
    (old_accepted new_accepted : gmap Z Info)
    (old_proto new_proto : gmap string Info)
    (answers : list Choice) : Ending * option Smtp :=
  let ask_confirmation := if dry_run r then false else ask_confirmation r in
  if ask_confirmation && negb can_be_interactive then (SysExit 2, None)
  else
    main_send r can_be_interactive config
      old_accepted new_accepted old_proto new_proto answers.

End Run.

(** The entry queued for a document that the old snapshot does not have. *)
Definition first_entry (id : Ident) (info : Info) : Update :=
  (id,
   match status info with
   | Val Status.PROTO => Action.PROTO
   | _ => Action.NEW
   end,
   info).

(** The number of [sep] in [s]. *)
Fixpoint count_char (sep : ascii) (s : string) : nat :=
  match s with
  | EmptyString => O
  | String c rest =>
      (if Ascii.eqb c sep then 1 else 0) + count_char sep rest
  end.

(** ** Sample data

    An instance of the [xeplib] interface, a line wrapper and a few records,
    to evaluate the definitions on. The theorems below are stated for every
    instance. *)

Module Samples.

Definition xeplib : XepLib :=
  {| fromstatus s :=
       match s with
       | Some Status.EXPERIMENTAL => Ok Action.NEW
       | Some Status.PROPOSED => Ok Action.LAST_CALL
       | Some Status.DEFERRED => Ok Action.DEFER
       | Some (Status.Other name) => Ok (Action.Other name)
       | Some Status.PROTO | None => Raise KeyError
       end;
     action_value a :=
       match a with
       | Action.PROTO => "PROTO"
       | Action.NEW => "NEW"
       | Action.UPDATE => "UPDATE"
       | Action.LAST_CALL => "LAST_CALL"
       | Action.DEFER => "DEFER"
       | Action.Other name => name
       end;
     status_value s :=
       match s with
       | Status.PROTO => "ProtoXEP"
       | Status.EXPERIMENTAL => "Experimental"
       | Status.PROPOSED => "Proposed"
       | Status.DEFERRED => "Deferred"
       | Status.Other name => name
       end |}.

(** A wrapper that keeps every line whole. *)
Definition keep_lines : TextWrap := fun line => [line].

Definition revision (v : string) : Revision :=
  {| version := Val v; remark := Val "Fix typos"; initials := Val "jd" |}.

(** An accepted document as a snapshot holds it. *)
Definition xep (n : Z) (s : Status.t) (v : string) : Info :=
  {| status := Val s;
     accepted := Val true;
     number := Val (XepNumber n);
     protoname := Missing;
     title := Val "Sample Extension";
     abstract := Val "This document is a sample.";
     type := Val "Standards Track";
     approver := Val "Council";
     last_call := PyNone;
     last_revision := Val (revision v) |}.

(** The same document with no [last_revision] entry. *)
Definition xep_unversioned (n : Z) (s : Status.t) : Info :=
  {| status := Val s;
     accepted := Val true;
     number := Val (XepNumber n);
     protoname := Missing;
     title := Val "Sample Extension";
     abstract := Val "This document is a sample.";
     type := Val "Standards Track";
     approver := Val "Council";
     last_call := PyNone;
     last_revision := Missing |}.

Definition proposed (n : Z) (v : string) (date : string) : Info :=
  {| status := Val Status.PROPOSED;
     accepted := Val true;
     number := Val (XepNumber n);
     protoname := Missing;
     title := Val "Sample Extension";
     abstract := Val "This document is a sample.";
     type := Val "Standards Track";
     approver := Val "Council";
     last_call := Val date;
     last_revision := Val (revision v) |}.

Definition protoxep (name : string) : Info :=
  {| status := Val Status.PROTO;
     accepted := Val false;
     number := Missing;
     protoname := Val name;
     title := Val "Sample Proposal";
     abstract := Val "This document is a proposal.";
     type := Val "Standards Track";
     approver := Val "Council";
     last_call := PyNone;
     last_revision := Val (revision "0.0.1") |}.

Definition all_args : Args :=
  {| include_protoxep := true;
     include_editorial := true;
     include_non_editorial := true |}.

Definition no_editorial : Args :=
  {| include_protoxep := true;
     include_editorial := false;
     include_non_editorial := true |}.

End Samples.

(** ** A sample header registry

    A registry to evaluate the composers on. As the one of the standard
    library does, it holds the empty string for [None], raises [ValueError]
    for a value in which text follows a line feed, and reads the encoded
    word [=?utf-8?q?Sample?=] as [Sample]; any other value is held as it
    is. The theorems below are stated for every registry. *)

Module Registry.

(** A line feed with text after it. *)
Fixpoint breaks_line (s : string) : bool :=
  match s with
  | EmptyString => false
  | String c rest =>
      (Ascii.eqb c LF && negb (String.eqb rest EmptyString))
      || breaks_line rest
  end.

Definition ENCODED_SAMPLE : string := "=?utf-8?q?Sample?=".

(** [s] with its first [ENCODED_SAMPLE] decoded. *)
Fixpoint decode (s : string) : string :=
  match strip_prefix ENCODED_SAMPLE s with
  | Some rest => "Sample" +:+ rest
  | None =>
      match s with
      | EmptyString => EmptyString
      | String c rest => String c (decode rest)
      end
  end.

Definition registry : HeaderRegistry :=
  fun name value =>
    match value with
    | None => Ok EmptyString
    | Some s => if breaks_line s then Raise ValueError else Ok (decode s)
    end.

(** An accepted document with the title [t]. *)
Definition titled (t : string) : Info :=
  {| status := Val Status.EXPERIMENTAL;
     accepted := Val true;
     number := Val (XepNumber 45);
     protoname := Missing;
     title := Val t;
     abstract := Val "This document is a sample.";
     type := Val "Standards Track";
     approver := Val "Council";
     last_call := PyNone;
     last_revision := Val (Samples.revision "1.1") |}.

End Registry.

(** ** Sample runs

    A configuration that is its own [from] option, a server that takes
    every message and one that takes a single message, and the arguments of
    a dry run, of a run with [-y] and of a run that asks. *)

Module Runs.

Definition date : string := "Mon, 01 Jan 2024 00:00:00 -0000".

Definition recipient : string := "standards@xmpp.org".

Definition sender : string := "editor@xmpp.org".

Definition extend (config : option string) : option string :=
  match config with
  | None => Some sender
  | Some from => Some from
  end.

Definition connect (config : option string) : Connect :=
  match config with
  | None => NotConfigured
  | Some _ => Connected
  end.

(** A server that takes every message. *)
Definition server : Transport := fun _ _ => true.

(** A server that takes one message on a connection. *)
Definition single : Transport :=
  fun conn _ => match sent conn with [] => true | _ :: _ => false end.

(** A server that refuses the mails of a deferral. *)
Definition selective : Transport :=
  fun _ mail =>
    negb (bool_decide (get_header "XSF-XEP-Action" mail = Some "DEFER")).

Definition dry : RunArgs :=
  {| run_args := Samples.all_args; ask_confirmation := true; dry_run := true |}.

Definition yes : RunArgs :=
  {| run_args := Samples.all_args; ask_confirmation := false;
     dry_run := false |}.

Definition ask : RunArgs :=
  {| run_args := Samples.all_args; ask_confirmation := true;
     dry_run := false |}.

Definition update_45 : Update :=
  (XepNumber 45, Action.UPDATE, Samples.xep 45 Status.EXPERIMENTAL "1.1").

Definition defer_46 : Update :=
  (XepNumber 46, Action.DEFER, Samples.xep 46 Status.DEFERRED "0.3").

Definition new_47 : Update :=
  (XepNumber 47, Action.NEW, Samples.xep_unversioned 47 Status.EXPERIMENTAL).

Definition fresh : Smtp := {| fake := false; sent := []; closed := false |}.

End Runs.

(** ** Strings *)

Lemma append_cons c s t : String c s +:+ t = String c (s +:+ t).
Proof. reflexivity. Qed.

Lemma append_nil_l s : EmptyString +:+ s = s.
Proof. reflexivity. Qed.

Lemma append_nil_r s : s +:+ EmptyString = s.
Proof.
  induction s as [|c s IH]; [reflexivity|]. rewrite append_cons. congruence.
Qed.

Lemma append_assoc s1 s2 s3 : (s1 +:+ s2) +:+ s3 = s1 +:+ s2 +:+ s3.
Proof.
  induction s1 as [|c s1 IH]; [reflexivity|]. rewrite !append_cons. congruence.
Qed.

Lemma length_append s1 s2 :
  String.length (s1 +:+ s2) = (String.length s1 + String.length s2)%nat.
Proof.
  induction s1 as [|c s1 IH]; [reflexivity|].
  rewrite append_cons. simpl. congruence.
Qed.

Lemma list_ascii_of_string_app s1 s2 :
  list_ascii_of_string (s1 +:+ s2)
  = list_ascii_of_string s1 ++ list_ascii_of_string s2.
Proof.
  induction s1 as [|c s1 IH]; [reflexivity|].
  rewrite append_cons. simpl. congruence.
Qed.



(** Splitting at a separator splits the text before it and the text after
    it. *)
Lemma split_app sep a b :
  split sep (a +:+ String sep b) = split sep a ++ split sep b.
Proof.
  unfold split. induction a as [|c a IH].
  - rewrite append_nil_l. simpl.
    rewrite Ascii.eqb_refl. now destruct (split_go sep b).
  - rewrite append_cons. simpl.
    destruct (split_go sep (a +:+ String sep b)) as [p ps].
    destruct (split_go sep a) as [p' ps'].
    destruct (split_go sep b) as [q qs].
    simpl in IH. injection IH as -> ->.
    now destruct (Ascii.eqb c sep).
Qed.

(** Joining the pieces with the separator gives the text back. *)
Lemma concat_split sep s :
  String.concat (String sep EmptyString) (split sep s) = s.
Proof.
  unfold split. induction s as [|c s IH]; [reflexivity|].
  simpl. destruct (split_go sep s) as [p ps]. rewrite <- IH.
  destruct (Ascii.eqb_spec c sep) as [->|Hne]; [reflexivity|].
  now destruct ps.
Qed.

(** No piece holds the separator. *)
Lemma split_pieces sep s piece :
  piece ∈ split sep s -> sep ∉ list_ascii_of_string piece.
Proof.
  unfold split. revert piece. induction s as [|c s IH]; intros piece; simpl.
  - intros ->%list_elem_of_singleton. apply not_elem_of_nil.
  - destruct (split_go sep s) as [p ps].
    destruct (Ascii.eqb_spec c sep) as [->|Hne].
    + intros [->|Hin]%elem_of_cons; [apply not_elem_of_nil|now apply IH].
    + intros [->|Hin]%elem_of_cons.
      * simpl. intros [?|Hin]%elem_of_cons; [congruence|].
        revert Hin. apply IH, list_elem_of_here.
      * now apply IH, list_elem_of_further.
Qed.

(** ** Numbers in four digits *)

Lemma uint_of_string_zeros k s d :
  NilEmpty.uint_of_string s = Some d ->
  NilEmpty.uint_of_string (zeros k +:+ s) = Some (Nat.iter k Decimal.D0 d).
Proof.
  intros Hs. induction k as [|k IH]; [exact Hs|].
  simpl zeros. rewrite append_cons. simpl. now rewrite IH.
Qed.

Lemma of_uint_zeros k d : N.of_uint (Nat.iter k Decimal.D0 d) = N.of_uint d.
Proof. induction k as [|k IH]; simpl; [reflexivity|exact IH]. Qed.

Lemma to_uint_nonnil n : N.to_uint n <> Decimal.Nil.
Proof.
  destruct n; simpl; [discriminate|apply DecimalPos.Unsigned.to_uint_nonnil].
Qed.

Lemma digits_nonempty n : digits n <> EmptyString.
Proof.
  unfold digits. pose proof (NilZero.usu _ (to_uint_nonnil n)) as Hu.
  intros Hs. rewrite Hs in Hu. discriminate Hu.
Qed.

Lemma uint_of_string_digits n :
  NilEmpty.uint_of_string (digits n) = Some (N.to_uint n).
Proof.
  pose proof (digits_nonempty n) as Hne. unfold digits in *.
  pose proof (NilZero.usu _ (to_uint_nonnil n)) as Hu.
  unfold NilZero.uint_of_string in Hu.
  destruct (NilZero.string_of_uint (N.to_uint n)); [congruence|exact Hu].
Qed.

(** A string of zeros and digits reads as the number of its digits, and does
    not start with a sign. *)
Lemma uint_of_string_zfill k n :
  exists d,
    NilZero.uint_of_string (zeros k +:+ digits n) = Some d /\
    N.of_uint d = n /\
    forall c rest, zeros k +:+ digits n = String c rest -> c <> "-"%char.
Proof.
  exists (Nat.iter k Decimal.D0 (N.to_uint n)).
  pose proof (uint_of_string_zeros k _ _ (uint_of_string_digits n)) as Hz.
  split; [|split].
  - unfold NilZero.uint_of_string.
    destruct (zeros k +:+ digits n) eqn:Hs; [|exact Hz].
    destruct k; [|discriminate Hs].
    rewrite append_nil_l in Hs. now apply digits_nonempty in Hs.
  - rewrite of_uint_zeros. apply DecimalN.Unsigned.of_to.
  - intros c rest Hs ->. rewrite Hs in Hz. simpl in Hz.
    destruct (NilEmpty.uint_of_string rest); discriminate Hz.
Qed.

(** Reading the four digits of a number gives the number back. *)
Lemma parse_int_format_04d n : parse_int (format_04d_int n) = Some n.
Proof.
  unfold format_04d_int, zfill.
  destruct (Z.ltb_spec n 0) as [Hneg|Hpos].
  - destruct (uint_of_string_zfill (3 - String.length (digits (Z.abs_N n)))
                (Z.abs_N n)) as (d & Hd & Hn & _).
    simpl. rewrite Hd. simpl. rewrite Hn. f_equal. rewrite N2Z.inj_abs_N. lia.
  - destruct (uint_of_string_zfill (4 - String.length (digits (Z.abs_N n)))
                (Z.abs_N n)) as (d & Hd & Hn & Hc).
    unfold parse_int.
    destruct (zeros _ +:+ digits (Z.abs_N n)) as [|c rest] eqn:Hs.
    + discriminate Hd.
    + destruct (Ascii.eqb_spec c "-") as [->|_]; [now destruct (Hc _ _ eq_refl)|].
      rewrite Hd. simpl. rewrite Hn. f_equal. rewrite N2Z.inj_abs_N. lia.
Qed.

(** ** Properties of the classifier *)

Section ClassifierProperties.
Context `{XepLib}.

Lemma dummy_info_wf number : wf_info (dummy_info number).
Proof. repeat split; discriminate. Qed.

Lemma extract_version_wf info :
  last_revision info <> PyNone -> extract_version info = Ok (version_of info).
Proof.
  unfold extract_version, version_of.
  destruct (last_revision info); simpl; congruence.
Qed.

Lemma getitem_get {A} (f : Field A) :
  f <> Missing -> getitem f = Ok (get f).
Proof. destruct f; simpl; congruence. Qed.

Lemma diff_infos_status_change old new :
  wf_info old -> wf_info new ->
  get (status old) <> get (status new) ->
  diff_infos old new
  = outcome_result (first_match (status_change_rules old new)).
Proof.
  intros (Hso & _) (Hsn & _) Hne.
  unfold diff_infos.
  rewrite (getitem_get _ Hso), (getitem_get _ Hsn); simpl.
  rewrite (bool_decide_eq_true_2 (_ <> _)) by tauto.
  unfold status_change_rules, first_match.
  repeat case_bool_decide; simpl; try reflexivity; try tauto; naive_solver.
Qed.

Lemma diff_infos_same_status old new :
  wf_info old -> wf_info new ->
  get (status old) = get (status new) ->
  diff_infos old new
  = outcome_result (first_match (same_status_rules old new)).
Proof.
  intros (Hso & Hro & Hlo) (Hsn & Hrn & Hln) Heq.
  unfold diff_infos.
  rewrite (getitem_get _ Hso), (getitem_get _ Hsn); simpl.
  rewrite !extract_version_wf by assumption.
  rewrite (bool_decide_eq_false_2 (_ <> _)) by tauto.
  unfold same_status_rules, first_match.
  destruct (decide (get (status old) = Some Status.PROPOSED)) as [Hp|Hp].
  - rewrite (bool_decide_eq_true_2 _ Hp).
    assert (status old = Val Status.PROPOSED) as Ho
      by (destruct (status old); simpl in Hp; congruence).
    assert (status new = Val Status.PROPOSED) as Hn
      by (rewrite Heq in Hp; destruct (status new); simpl in Hp; congruence).
    rewrite (getitem_get _ (Hlo Ho)), (getitem_get _ (Hln Hn)); simpl.
    repeat case_bool_decide; simpl; try reflexivity; tauto.
  - rewrite (bool_decide_eq_false_2 _ Hp); simpl.
    repeat case_bool_decide; simpl; try reflexivity; tauto.
Qed.

(** The cases of section 8 of the specification. *)
Example diff_infos_new :
  diff_infos (dummy_info (XepNumber 45))
    (Samples.xep 45 Status.EXPERIMENTAL "0.1") = Ok (Some Action.NEW).
Proof. reflexivity. Qed.

Example diff_infos_last_call :
  diff_infos (Samples.proposed 45 "1.0" "2024-01-31")
    (Samples.proposed 45 "1.0" "2024-02-29") = Ok (Some Action.LAST_CALL).
Proof. reflexivity. Qed.

Example diff_infos_proto :
  diff_infos (Samples.xep 45 Status.EXPERIMENTAL "0.1")
    (Samples.protoxep "sample") = Ok (Some Action.PROTO).
Proof. reflexivity. Qed.

(** C1: on the records the script compares, [diff_infos] is the
    priority-ordered, first-match-wins algorithm of section 4.1 of the
    specification: rules 1a to 1e when the statuses differ, else last call
    on a proposed document, else a changed version, else no action. *)
Theorem diff_infos_classify old new :
  wf_info old -> wf_info new ->
  diff_infos old new = classify old new.
Proof.
  intros Ho Hn. unfold classify.
  case_bool_decide as Hs.
  - now apply diff_infos_status_change.
  - apply diff_infos_same_status; [assumption..|].
    destruct (decide (get (status old) = get (status new))); tauto.
Qed.

Lemma diff_infos_deferred_experimental old new :
  status old = Val Status.DEFERRED ->
  status new = Val Status.EXPERIMENTAL ->
  diff_infos old new = Ok (Some Action.UPDATE).
Proof. intros Ho Hn. unfold diff_infos. rewrite Ho, Hn. reflexivity. Qed.

Lemma extract_version_of info v :
  version_of info = Some v -> extract_version info = Ok (Some v).
Proof.
  unfold version_of, extract_version.
  destruct (last_revision info); simpl; congruence.
Qed.

(** C4: a deferred document that is experimental again is an [UPDATE]; a
    proposed document that is experimental again yields no action. *)
Theorem diff_infos_back_to_experimental old new :
  status new = Val Status.EXPERIMENTAL ->
  (status old = Val Status.DEFERRED ->
   diff_infos old new = Ok (Some Action.UPDATE)) /\
  (status old = Val Status.PROPOSED -> diff_infos old new = Ok None).
Proof.
  intros Hn; split; intros Ho; unfold diff_infos; rewrite Ho, Hn; reflexivity.
Qed.

(** C5: records of one status, one last-call date and one version string
    yield no action, whatever their other entries hold. *)
Theorem diff_infos_unchanged old new :
  wf_info old -> wf_info new ->
  get (status old) = get (status new) ->
  get (last_call old) = get (last_call new) ->
  version_of old = version_of new ->
  diff_infos old new = Ok None.
Proof.
  intros Ho Hn Hs Hl Hv.
  rewrite diff_infos_same_status by assumption.
  unfold same_status_rules, first_match.
  rewrite (bool_decide_eq_false_2 (_ /\ _)) by tauto.
  rewrite (bool_decide_eq_false_2 (_ <> _)) by tauto.
  reflexivity.
Qed.

End ClassifierProperties.

Lemma diff_infos_classify_witness :
  diff_infos (H := Samples.xeplib)
    (Samples.xep 45 Status.EXPERIMENTAL "1.2.3") (Samples.proposed 45 "1.2.3" "2024-01-31")
  = classify (H := Samples.xeplib)
      (Samples.xep 45 Status.EXPERIMENTAL "1.2.3") (Samples.proposed 45 "1.2.3" "2024-01-31").
Proof.
  apply (diff_infos_classify (H := Samples.xeplib)); repeat split; discriminate.
Defined.

Lemma diff_infos_back_to_experimental_witness :
  diff_infos (H := Samples.xeplib)
    (Samples.xep 45 Status.DEFERRED "1.2.3") (Samples.xep 45 Status.EXPERIMENTAL "1.3.0")
  = Ok (Some Action.UPDATE) /\
  diff_infos (H := Samples.xeplib)
    (Samples.proposed 45 "1.2.3" "2024-01-31") (Samples.xep 45 Status.EXPERIMENTAL "1.2.3")
  = Ok None.
Proof.
  split.
  - apply (diff_infos_back_to_experimental (H := Samples.xeplib)); reflexivity.
  - apply (diff_infos_back_to_experimental (H := Samples.xeplib)); reflexivity.
Defined.

Lemma diff_infos_unchanged_witness :
  diff_infos (H := Samples.xeplib)
    (Samples.proposed 45 "1.2.3" "2024-01-31")
    (Samples.proposed 46 "1.2.3" "2024-01-31")
  = Ok None.
Proof.
  apply (diff_infos_unchanged (H := Samples.xeplib));
    first [reflexivity | repeat split; discriminate].
Defined.

(** ** Properties of the significance filter *)

Lemma split_nonempty sep s : split sep s <> [].
Proof. unfold split. destruct (split_go sep s). discriminate. Qed.

Lemma decompose_version_padded v :
  decompose_version (Some v)
  = Ok (split "." v ++ replicate (3 - length (split "." v)) "0").
Proof.
  unfold decompose_version. case_decide as Hlen; [reflexivity|].
  replace (3 - length (split "." v))%nat with 0%nat by lia.
  simpl. now rewrite app_nil_r.
Qed.

Lemma take_2_padded (l : list string) :
  take 2 (l ++ replicate (3 - length l) "0") = [nth 0 l "0"; nth 1 l "0"].
Proof. destruct l as [|a [|b [|c l]]]; reflexivity. Qed.

Lemma length_padded (l : list string) :
  (3 <= length (l ++ replicate (3 - length l) "0"))%nat.
Proof. rewrite length_app, length_replicate. lia. Qed.

Lemma filter_bump_level_versions old new e ne :
  filter_bump_level (Some old) (Some new) e ne
  = Ok (permitted
          (bool_decide (component 0 old = component 0 new /\
                        component 1 old = component 1 new)) e ne).
Proof.
  unfold filter_bump_level.
  rewrite !decompose_version_padded. simpl.
  rewrite !take_2_padded.
  change (nth 0 (split "." old) "0") with (component 0 old).
  change (nth 1 (split "." old) "0") with (component 1 old).
  change (nth 0 (split "." new) "0") with (component 0 new).
  change (nth 1 (split "." new) "0") with (component 1 new).
  rewrite (bool_decide_ext _ (component 0 old = component 0 new /\
                              component 1 old = component 1 new))
    by (split; [intros [= -> ->] | intros [-> ->]]; auto).
  destruct (bool_decide _), e, ne; reflexivity.
Qed.

Lemma filter_bump_level_no_old new e ne :
  filter_bump_level None new e ne = Ok (permitted false e ne).
Proof. unfold filter_bump_level. simpl. now destruct ne. Qed.

(** C2: [decompose_version] pads the dot-separated components of a version
    (the pieces that hold no dot and that, joined with dots, are the version)
    with ["0"] to at least three; a change is editorial exactly when there is
    an old version and the first two components are unchanged; and
    [filter_bump_level] answers with the include flag of that class. The four
    cases of section 8 of the specification follow. *)
Theorem filter_bump_level_spec :
  (forall v, exists pieces,
      decompose_version (Some v)
      = Ok (pieces ++ replicate (3 - length pieces) "0") /\
      (3 <= length (pieces ++ replicate (3 - length pieces) "0"))%nat /\
      String.concat "." pieces = v /\
      (forall piece, piece ∈ pieces -> "."%char ∉ list_ascii_of_string piece)) /\
  (forall old new e ne,
      filter_bump_level (Some old) (Some new) e ne
      = Ok (permitted
              (bool_decide (component 0 old = component 0 new /\
                            component 1 old = component 1 new)) e ne)) /\
  (forall new e ne,
      filter_bump_level None new e ne = Ok (permitted false e ne)) /\
  filter_bump_level (Some "1.2.3") (Some "1.2.9") false true = Ok false /\
  filter_bump_level (Some "1.2.3") (Some "2.0.0") true false = Ok false /\
  filter_bump_level (Some "1.2.3") (Some "1.2.9") true true = Ok true /\
  filter_bump_level (Some "1.2.3") (Some "2.0.0") true true = Ok true /\
  filter_bump_level None (Some "1.0.0") false true = Ok true.
Proof.
  split; [|split; [|split]].
  - intros v. exists (split "." v). split; [apply decompose_version_padded|].
    split; [apply length_padded|].
    split; [apply concat_split|apply split_pieces].
  - apply filter_bump_level_versions.
  - apply filter_bump_level_no_old.
  - repeat split; reflexivity.
Qed.

Lemma filter_bump_level_no_new old e ne :
  filter_bump_level (Some old) None e ne = Raise AttributeError.
Proof.
  unfold filter_bump_level. rewrite decompose_version_padded. reflexivity.
Qed.

Lemma filter_bump_level_ok old new e ne :
  is_ok (filter_bump_level old new e ne) <-> old = None \/ new <> None.
Proof.
  destruct old as [old|], new as [new|].
  - rewrite filter_bump_level_versions. split; [auto|]. intros _. now eexists.
  - rewrite filter_bump_level_no_new. split.
    + intros [b Hb]. discriminate.
    + intros [?|?]; congruence.
  - rewrite filter_bump_level_no_old. split; [auto|]. intros _. now eexists.
  - rewrite filter_bump_level_no_old. split; [auto|]. intros _. now eexists.
Qed.

(** ** Properties of the reporting loop *)

Section ForEach.
Context {A S : Type} (body : A -> S -> Exc S).

(** A loop whose body raises at some element does not finish. *)
Lemma for_each_not_ok l s x :
  x ∈ l -> (forall s, ~ is_ok (body x s)) -> ~ is_ok (for_each body l s).
Proof.
  intros Hx Hraise. revert s.
  induction l as [|y l IH]; intros s; [now apply not_elem_of_nil in Hx|].
  apply elem_of_cons in Hx. simpl.
  destruct (body y s) as [s'|e] eqn:Hy; simpl.
  - destruct Hx as [->|Hx]; [|now apply IH].
    exfalso. apply (Hraise s). rewrite Hy. now eexists.
  - intros [? ?]; discriminate.
Qed.

(** What every pass of the body keeps holds when the loop is done. *)
Lemma for_each_invariant (P : S -> Prop) l s s' :
  (forall x s t, x ∈ l -> P s -> body x s = Ok t -> P t) ->
  P s -> for_each body l s = Ok s' -> P s'.
Proof.
  revert s. induction l as [|y l IH]; intros s Hstep Hs; simpl.
  - now intros [= <-].
  - destruct (body y s) as [t|e] eqn:Hy; simpl; [|discriminate].
    apply IH.
    + intros x u v Hx. apply Hstep. now apply list_elem_of_further.
    + eapply Hstep; [apply list_elem_of_here|exact Hs|exact Hy].
Qed.

(** Two bodies that agree on the elements of the list run the same loop. *)
Lemma for_each_ext (body' : A -> S -> Exc S) l s :
  (forall x s, x ∈ l -> body x s = body' x s) ->
  for_each body l s = for_each body' l s.
Proof.
  revert s. induction l as [|y l IH]; intros s Hext; [reflexivity|].
  simpl. rewrite <- (Hext y s) by apply list_elem_of_here.
  destruct (body y s) as [t|e]; simpl; [|reflexivity].
  apply IH. intros x u Hx. apply Hext. now apply list_elem_of_further.
Qed.
End ForEach.

Section Queue.
Context {A : Type} (body : A -> list Update -> Exc (list Update)).
Context (ident : A -> Ident).

(** The identifiers queued by a loop, in order, are picked from the
    identifiers of the elements it ran over. *)
Lemma for_each_queue l s s' :
  queues_at_most_one body ident ->
  for_each body l s = Ok s' ->
  exists k, s' = s ++ k /\ k.*1.*1 `sublist_of` (ident <$> l).
Proof.
  intros Hbody. revert s.
  induction l as [|y l IH]; intros s; simpl.
  - intros [= <-]. exists []. now rewrite app_nil_r.
  - destruct (body y s) as [t|e] eqn:Hy; simpl; [|discriminate].
    intros Hloop. destruct (IH _ Hloop) as (k & -> & Hk).
    destruct (Hbody _ _ _ Hy) as [->|(a & i & ->)].
    + exists k. split; [reflexivity|]. now apply sublist_cons.
    + exists ((ident y, a, i) :: k). rewrite <- app_assoc. split; [reflexivity|].
      simpl. now apply sublist_skip.
Qed.

(** An entry queued at an element of the list is in the final queue. *)
Lemma for_each_queued l s s' x e :
  queues_at_most_one body ident ->
  x ∈ l ->
  (forall s t, body x s = Ok t -> e ∈ t) ->
  for_each body l s = Ok s' -> e ∈ s'.
Proof.
  intros Hbody Hx He. revert s.
  induction l as [|y l IH]; intros s; [now apply not_elem_of_nil in Hx|].
  simpl. destruct (body y s) as [t|err] eqn:Hy; simpl; [|discriminate].
  intros Hloop. apply elem_of_cons in Hx as [->|Hx]; [|now apply (IH Hx t)].
  destruct (for_each_queue _ _ _ Hbody Hloop) as (k & -> & _).
  apply elem_of_app. left. now apply (He s).
Qed.
End Queue.

Section LoopProperties.
Context `{XepLib}.
Variable args : Args.
Variables old_accepted new_accepted : gmap Z Info.
Variables old_proto new_proto : gmap string Info.

Lemma elem_of_common_xeps id old_info new_info :
  old_accepted !! id = Some old_info ->
  new_accepted !! id = Some new_info ->
  id ∈ elements (common_xeps old_accepted new_accepted).
Proof.
  intros Ho Hn. unfold common_xeps.
  rewrite elem_of_elements, elem_of_intersection, !elem_of_dom. eauto.
Qed.

(** A version that is gone from the new record: the classifier sees a
    changed version, and the filter is called with [None]. *)
Lemma common_body_version_gone id old_info new_info v updates :
  old_accepted !! id = Some old_info ->
  new_accepted !! id = Some new_info ->
  wf_info old_info -> wf_info new_info ->
  get (status old_info) = get (status new_info) ->
  get (last_call old_info) = get (last_call new_info) ->
  version_of old_info = Some v ->
  version_of new_info = None ->
  common_body args old_accepted new_accepted id updates
  = Raise AttributeError.
Proof.
  intros Ho Hn Hwo Hwn Hs Hl Hvo Hvn.
  unfold common_body, dict_getitem. rewrite Ho, Hn. simpl.
  rewrite diff_infos_same_status by assumption.
  unfold same_status_rules, first_match.
  rewrite (bool_decide_eq_false_2 (_ /\ _)) by tauto.
  rewrite (bool_decide_eq_true_2 (_ <> _)) by congruence.
  simpl.
  rewrite !extract_version_wf by apply Hwo || apply Hwn.
  rewrite Hvo, Hvn. reflexivity.
Qed.

(** C7: [filter_bump_level] has a result exactly when the old version is
    [None] or the new version is not: with an old version and no new one,
    [decompose_version] is applied to [None] and raises. The loop of [main]
    gets there when a document keeps its status and loses its version. *)
Theorem filter_bump_level_partial id old_info new_info v :
  old_accepted !! id = Some old_info ->
  new_accepted !! id = Some new_info ->
  wf_info old_info -> wf_info new_info ->
  get (status old_info) = get (status new_info) ->
  get (last_call old_info) = get (last_call new_info) ->
  version_of old_info = Some v ->
  version_of new_info = None ->
  decompose_version None = Raise AttributeError /\
  (forall old new e ne,
      is_ok (filter_bump_level old new e ne) <-> old = None \/ new <> None) /\
  filter_bump_level (version_of old_info) (version_of new_info)
    (include_editorial args) (include_non_editorial args)
  = Raise AttributeError /\
  (forall updates,
      common_body args old_accepted new_accepted id updates
      = Raise AttributeError) /\
  ~ is_ok (main_updates args old_accepted new_accepted old_proto new_proto).
Proof.
  intros Ho Hn Hwo Hwn Hs Hl Hvo Hvn.
  assert (forall updates,
             common_body args old_accepted new_accepted id updates
             = Raise AttributeError) as Hbody
    by (intros; eapply common_body_version_gone; eauto).
  split; [reflexivity|]. split; [apply filter_bump_level_ok|].
  split; [rewrite Hvo, Hvn; apply filter_bump_level_no_new|].
  split; [exact Hbody|].
  unfold main_updates.
  destruct (for_each _ (elements (common_xeps _ _)) []) as [ups|e] eqn:Hloop.
  - exfalso.
    eapply (for_each_not_ok
              (common_body args old_accepted new_accepted) _ [] id).
    + eapply elem_of_common_xeps; eauto.
    + intros s [t Ht]. rewrite Hbody in Ht. discriminate.
    + rewrite Hloop. now eexists.
  - simpl. intros [? ?]; discriminate.
Qed.

Lemma common_body_queue :
  queues_at_most_one (common_body args old_accepted new_accepted) XepNumber.
Proof.
  intros id s t. unfold common_body.
  destruct (dict_getitem old_accepted id) as [old_info|]; simpl; [|discriminate].
  destruct (dict_getitem new_accepted id) as [new_info|]; simpl; [|discriminate].
  destruct (diff_infos old_info new_info) as [action|]; simpl; [|discriminate].
  match goal with |- context [exc_bind ?m _] => destruct m as [[|]|] end;
    simpl; try discriminate.
  - intros [= <-]. now left.
  - destruct action as [a|]; intros [= <-]; [right; eauto | now left].
Qed.

Lemma added_body_queue : queues_at_most_one (added_body new_accepted) XepNumber.
Proof.
  intros id s t. unfold added_body.
  destruct (dict_getitem new_accepted id) as [new_info|]; simpl; [|discriminate].
  destruct (diff_infos _ new_info) as [[a|]|]; simpl; try discriminate;
    intros [= <-]; [right; eauto | now left].
Qed.

Lemma proto_body_queue : queues_at_most_one (proto_body new_proto) ProtoName.
Proof.
  intros id s t. unfold proto_body.
  destruct (dict_getitem new_proto id) as [new_info|]; simpl; [|discriminate].
  destruct (diff_infos _ new_info) as [[a|]|]; simpl; try discriminate;
    intros [= <-]; [right; eauto | now left].
Qed.

(** The queue of [main] is the queue of its three loops, one after the
    other. *)
Lemma main_updates_loops updates :
  main_updates args old_accepted new_accepted old_proto new_proto = Ok updates ->
  exists k1 k2 k3,
    updates = k1 ++ k2 ++ k3 /\
    for_each (common_body args old_accepted new_accepted)
      (elements (common_xeps old_accepted new_accepted)) [] = Ok k1 /\
    for_each (added_body new_accepted)
      (elements (added_xeps old_accepted new_accepted)) k1 = Ok (k1 ++ k2) /\
    (if include_protoxep args
     then for_each (proto_body new_proto)
            (elements (added_protos old_proto new_proto)) (k1 ++ k2)
          = Ok (k1 ++ k2 ++ k3)
     else k3 = []) /\
    k1.*1.*1 `sublist_of`
      (XepNumber <$> elements (common_xeps old_accepted new_accepted)) /\
    k2.*1.*1 `sublist_of`
      (XepNumber <$> elements (added_xeps old_accepted new_accepted)) /\
    k3.*1.*1 `sublist_of`
      (if include_protoxep args
       then ProtoName <$> elements (added_protos old_proto new_proto) else []).
Proof.
  unfold main_updates.
  destruct (for_each _ (elements (common_xeps _ _)) []) as [u1|] eqn:H1;
    simpl; [|discriminate].
  destruct (for_each _ (elements (added_xeps _ _)) u1) as [u2|] eqn:H2;
    simpl; [|discriminate].
  destruct (for_each_queue _ _ _ _ _ common_body_queue H1) as (k1 & -> & Hk1).
  destruct (for_each_queue _ _ _ _ _ added_body_queue H2) as (k2 & -> & Hk2).
  simpl in *.
  destruct (include_protoxep args).
  - intros H3.
    destruct (for_each_queue _ _ _ _ _ proto_body_queue H3) as (k3 & -> & Hk3).
    exists k1, k2, k3. rewrite <- app_assoc in *. repeat split; assumption.
  - intros [= <-]. exists k1, k2, []. rewrite app_nil_r.
    repeat split; try assumption. reflexivity.
Qed.

Lemma elem_of_visited_number n :
  XepNumber n ∈ visited args old_accepted new_accepted old_proto new_proto
  <-> n ∈ dom new_accepted.
Proof.
  unfold visited, common_xeps, added_xeps.
  rewrite !elem_of_app, !list_elem_of_fmap.
  split.
  - intros [(m & [= <-] & Hm)|[(m & [= <-] & Hm)|Hp]].
    + apply elem_of_elements in Hm. set_solver.
    + apply elem_of_elements in Hm. set_solver.
    + destruct (include_protoxep args); [|now apply not_elem_of_nil in Hp].
      apply list_elem_of_fmap in Hp as (? & [=] & _).
  - intros Hn. destruct (decide (n ∈ dom old_accepted)).
    + left. exists n. split; [reflexivity|]. apply elem_of_elements. set_solver.
    + right; left. exists n. split; [reflexivity|].
      apply elem_of_elements. set_solver.
Qed.

Lemma elem_of_visited_proto name :
  ProtoName name ∈ visited args old_accepted new_accepted old_proto new_proto
  <-> include_protoxep args = true /\
      name ∈ dom new_proto /\ name ∉ dom old_proto.
Proof.
  unfold visited, added_protos.
  rewrite !elem_of_app, !list_elem_of_fmap.
  split.
  - intros [(m & [=] & _)|[(m & [=] & _)|Hp]].
    destruct (include_protoxep args); [|now apply not_elem_of_nil in Hp].
    apply list_elem_of_fmap in Hp as (m & [= <-] & Hm).
    apply elem_of_elements in Hm. set_solver.
  - intros (-> & Hn & Ho). right; right.
    apply list_elem_of_fmap. exists name. split; [reflexivity|].
    apply elem_of_elements. set_solver.
Qed.

Lemma NoDup_visited :
  NoDup (visited args old_accepted new_accepted old_proto new_proto).
Proof.
  unfold visited.
  assert (Inj (=) (=) XepNumber) by (intros ? ? [=]; assumption).
  assert (Inj (=) (=) ProtoName) by (intros ? ? [=]; assumption).
  apply NoDup_app. split; [apply NoDup_fmap_2; [assumption|apply NoDup_elements]|].
  split.
  - intros x Hx Hx'.
    apply list_elem_of_fmap in Hx as (n & -> & Hn).
    apply elem_of_elements in Hn.
    apply elem_of_app in Hx' as [Hx'|Hx'].
    + apply list_elem_of_fmap in Hx' as (m & [= <-] & Hm).
      apply elem_of_elements in Hm. unfold common_xeps, added_xeps in *.
      set_solver.
    + destruct (include_protoxep args); [|now apply not_elem_of_nil in Hx'].
      apply list_elem_of_fmap in Hx' as (? & [=] & _).
  - apply NoDup_app.
    split; [apply NoDup_fmap_2; [assumption|apply NoDup_elements]|].
    split.
    + intros x Hx Hx'.
      apply list_elem_of_fmap in Hx as (n & -> & Hn).
      destruct (include_protoxep args); [|now apply not_elem_of_nil in Hx'].
      apply list_elem_of_fmap in Hx' as (? & [=] & _).
    + destruct (include_protoxep args); [|apply NoDup_nil_2].
      apply NoDup_fmap_2; [assumption|apply NoDup_elements].
Qed.

Lemma main_updates_sublist updates :
  main_updates args old_accepted new_accepted old_proto new_proto = Ok updates ->
  updates.*1.*1
    `sublist_of` visited args old_accepted new_accepted old_proto new_proto.
Proof.
  intros Hmain.
  destruct (main_updates_loops _ Hmain)
    as (k1 & k2 & k3 & -> & _ & _ & _ & Hk1 & Hk2 & Hk3).
  rewrite !fmap_app. unfold visited.
  repeat apply sublist_app; assumption.
Qed.

End LoopProperties.

Section OldOnly.
Context `{XepLib}.
Variable args : Args.
Variables old_accepted new_accepted : gmap Z Info.
Variables old_proto new_proto : gmap string Info.

(** The record of a document that is in the old snapshot only is never
    read. *)
Lemma main_updates_delete_old n :
  n ∉ dom new_accepted ->
  main_updates args (delete n old_accepted) new_accepted old_proto new_proto
  = main_updates args old_accepted new_accepted old_proto new_proto.
Proof.
  intros Hn. unfold main_updates.
  assert (common_xeps (delete n old_accepted) new_accepted
          = common_xeps old_accepted new_accepted) as ->
    by (unfold common_xeps; rewrite dom_delete_L; set_solver).
  assert (added_xeps (delete n old_accepted) new_accepted
          = added_xeps old_accepted new_accepted) as ->
    by (unfold added_xeps; rewrite dom_delete_L; set_solver).
  rewrite (for_each_ext (common_body args (delete n old_accepted) new_accepted)
             (common_body args old_accepted new_accepted)); [reflexivity|].
  intros x s Hx. unfold common_body, dict_getitem.
  rewrite lookup_delete_ne; [reflexivity|].
  intros <-. apply elem_of_elements in Hx. unfold common_xeps in Hx. set_solver.
Qed.

Lemma main_updates_delete_old_proto name :
  name ∉ dom new_proto ->
  main_updates args old_accepted new_accepted (delete name old_proto) new_proto
  = main_updates args old_accepted new_accepted old_proto new_proto.
Proof.
  intros Hn. unfold main_updates.
  assert (added_protos (delete name old_proto) new_proto
          = added_protos old_proto new_proto) as ->
    by (unfold added_protos; rewrite dom_delete_L; set_solver).
  reflexivity.
Qed.

(** C3 (as amended): the loops of [main] run over the identifiers of the new
    snapshot, each of them once: the accepted documents of the new snapshot
    and, when enabled, its ProtoXEPs that the old snapshot does not have. The
    queue holds at most one action for each of them. A document that is in
    the old snapshot only is not classified: the queue is the same without
    it. *)
Theorem main_updates_visits_new_snapshot updates :
  main_updates args old_accepted new_accepted old_proto new_proto = Ok updates ->
  updates.*1.*1
    `sublist_of` visited args old_accepted new_accepted old_proto new_proto /\
  NoDup (updates.*1.*1) /\
  NoDup (visited args old_accepted new_accepted old_proto new_proto) /\
  (forall n,
      XepNumber n ∈ visited args old_accepted new_accepted old_proto new_proto
      <-> n ∈ dom new_accepted) /\
  (forall name,
      ProtoName name
        ∈ visited args old_accepted new_accepted old_proto new_proto
      <-> include_protoxep args = true /\
          name ∈ dom new_proto /\ name ∉ dom old_proto) /\
  (forall n,
      n ∉ dom new_accepted ->
      main_updates args (delete n old_accepted) new_accepted old_proto new_proto
      = Ok updates) /\
  (forall name,
      name ∉ dom new_proto ->
      main_updates args old_accepted new_accepted (delete name old_proto)
        new_proto
      = Ok updates).
Proof.
  intros Hmain.
  pose proof (main_updates_sublist _ _ _ _ _ _ Hmain) as Hsub.
  pose proof (NoDup_visited args old_accepted new_accepted old_proto new_proto)
    as Hnodup.
  split; [exact Hsub|].
  split; [eapply sublist_NoDup; eassumption|].
  split; [exact Hnodup|].
  split; [apply elem_of_visited_number|].
  split; [apply elem_of_visited_proto|].
  split.
  - intros n Hn. now rewrite main_updates_delete_old.
  - intros name Hn. now rewrite main_updates_delete_old_proto.
Qed.

End OldOnly.

(** C3 (as stated) fails: a document that is in the old snapshot only is in
    neither of the sets the loops run over, and nothing is queued for it. *)
Lemma old_only_not_visited :
  (45 ∈ dom ({[ 45 := Samples.xep 45 Status.EXPERIMENTAL "1.0" ]}
              : gmap Z Info)
        ∪ dom (∅ : gmap Z Info)) /\
  (XepNumber 45
     ∉ visited Samples.all_args
         {[ 45 := Samples.xep 45 Status.EXPERIMENTAL "1.0" ]} ∅ ∅ ∅) /\
  main_updates (H := Samples.xeplib) Samples.all_args
    {[ 45 := Samples.xep 45 Status.EXPERIMENTAL "1.0" ]} ∅ ∅ ∅ = Ok [].
Proof.
  split; [|split].
  - apply elem_of_union. left. apply elem_of_dom. now eexists.
  - vm_compute. apply not_elem_of_nil.
  - reflexivity.
Qed.

Lemma main_updates_visits_new_snapshot_witness :
  NoDup (([(XepNumber 46, Action.NEW,
            Samples.xep 46 Status.EXPERIMENTAL "0.1")].*1).*1).
Proof.
  apply (main_updates_visits_new_snapshot (H := Samples.xeplib)
           Samples.all_args
           {[ 45 := Samples.xep 45 Status.EXPERIMENTAL "1.0" ]}
           {[ 46 := Samples.xep 46 Status.EXPERIMENTAL "0.1" ]} ∅ ∅).
  reflexivity.
Defined.

Lemma filter_bump_level_partial_witness :
  ~ is_ok (main_updates (H := Samples.xeplib) Samples.all_args
             {[ 45 := Samples.xep 45 Status.EXPERIMENTAL "1.0" ]}
             {[ 45 := Samples.xep_unversioned 45 Status.EXPERIMENTAL ]}
             ∅ ∅).
Proof.
  apply (filter_bump_level_partial (H := Samples.xeplib) Samples.all_args
           {[ 45 := Samples.xep 45 Status.EXPERIMENTAL "1.0" ]}
           {[ 45 := Samples.xep_unversioned 45 Status.EXPERIMENTAL ]}
           ∅ ∅ 45
           (Samples.xep 45 Status.EXPERIMENTAL "1.0")
           (Samples.xep_unversioned 45 Status.EXPERIMENTAL) "1.0");
    first [reflexivity | repeat split; discriminate].
Defined.

Section Significance.
Context `{XepLib}.
Variable args : Args.
Variables old_accepted new_accepted : gmap Z Info.
Variables old_proto new_proto : gmap string Info.

(** An action other than [UPDATE] on a document of both snapshots is queued
    without a call of [filter_bump_level]. *)
Lemma common_body_not_update id old_info new_info action updates :
  old_accepted !! id = Some old_info ->
  new_accepted !! id = Some new_info ->
  diff_infos old_info new_info = Ok (Some action) ->
  action <> Action.UPDATE ->
  common_body args old_accepted new_accepted id updates
  = Ok (updates ++ [(XepNumber id, action, new_info)]).
Proof.
  intros Ho Hn Hdiff Hne. unfold common_body, dict_getitem.
  rewrite Ho, Hn. simpl. rewrite Hdiff. simpl.
  rewrite bool_decide_eq_false_2 by congruence. reflexivity.
Qed.

(** The include flags matter to the pass on a document only when its action
    is [UPDATE]. *)
Lemma common_body_flags args' id updates :
  (forall old_info new_info,
      old_accepted !! id = Some old_info ->
      new_accepted !! id = Some new_info ->
      diff_infos old_info new_info <> Ok (Some Action.UPDATE)) ->
  common_body args old_accepted new_accepted id updates
  = common_body args' old_accepted new_accepted id updates.
Proof.
  intros Hdiff. unfold common_body, dict_getitem.
  destruct (old_accepted !! id) as [old_info|]; [|reflexivity].
  destruct (new_accepted !! id) as [new_info|]; [|reflexivity].
  specialize (Hdiff _ _ eq_refl eq_refl). simpl.
  destruct (diff_infos old_info new_info) as [action|]; [|reflexivity].
  simpl. rewrite bool_decide_eq_false_2 by congruence. reflexivity.
Qed.

Lemma added_body_action id new_info action updates :
  new_accepted !! id = Some new_info ->
  diff_infos (dummy_info (XepNumber id)) new_info = Ok (Some action) ->
  added_body new_accepted id updates
  = Ok (updates ++ [(XepNumber id, action, new_info)]).
Proof.
  intros Hn Hdiff. unfold added_body, dict_getitem.
  rewrite Hn. simpl. rewrite Hdiff. reflexivity.
Qed.

Lemma proto_body_action name new_info action updates :
  new_proto !! name = Some new_info ->
  diff_infos (dummy_info (ProtoName "xxxx")) new_info = Ok (Some action) ->
  proto_body new_proto name updates
  = Ok (updates ++ [(ProtoName name, action, new_info)]).
Proof.
  intros Hn Hdiff. unfold proto_body, dict_getitem.
  rewrite Hn. simpl. rewrite Hdiff. reflexivity.
Qed.

(** C6: only an [UPDATE] on a document of both snapshots goes through
    [filter_bump_level]. Whatever the include flags, every other action on
    such a document is queued, and so is every action on a document or a
    ProtoXEP that the old snapshot does not have. *)
Theorem significance_filter_scope updates :
  main_updates args old_accepted new_accepted old_proto new_proto = Ok updates ->
  (forall args' id queue,
      (forall old_info new_info,
          old_accepted !! id = Some old_info ->
          new_accepted !! id = Some new_info ->
          diff_infos old_info new_info <> Ok (Some Action.UPDATE)) ->
      common_body args old_accepted new_accepted id queue
      = common_body args' old_accepted new_accepted id queue) /\
  (forall id old_info new_info action,
      old_accepted !! id = Some old_info ->
      new_accepted !! id = Some new_info ->
      diff_infos old_info new_info = Ok (Some action) ->
      action <> Action.UPDATE ->
      (XepNumber id, action, new_info) ∈ updates) /\
  (forall id new_info action,
      old_accepted !! id = None ->
      new_accepted !! id = Some new_info ->
      diff_infos (dummy_info (XepNumber id)) new_info = Ok (Some action) ->
      (XepNumber id, action, new_info) ∈ updates) /\
  (forall name new_info action,
      include_protoxep args = true ->
      old_proto !! name = None ->
      new_proto !! name = Some new_info ->
      diff_infos (dummy_info (ProtoName "xxxx")) new_info = Ok (Some action) ->
      (ProtoName name, action, new_info) ∈ updates).
Proof.
  intros Hmain.
  destruct (main_updates_loops _ _ _ _ _ _ Hmain)
    as (k1 & k2 & k3 & -> & H1 & H2 & H3 & _).
  split; [intros; now apply common_body_flags|].
  split; [|split].
  - intros id old_info new_info action Ho Hn Hdiff Hne.
    apply elem_of_app. left.
    eapply (for_each_queued _ _ _ _ _ id); [apply common_body_queue| | |exact H1].
    + eapply elem_of_common_xeps; eassumption.
    + intros s t. erewrite common_body_not_update by eassumption.
      intros [= <-]. apply elem_of_app. right. apply list_elem_of_here.
  - intros id new_info action Ho Hn Hdiff.
    rewrite app_assoc. apply elem_of_app. left.
    eapply (for_each_queued _ _ _ _ _ id); [apply added_body_queue| | |exact H2].
    + unfold added_xeps. rewrite elem_of_elements, elem_of_difference.
      rewrite !elem_of_dom, Ho, Hn. split; [eauto|]. intros [? [=]].
    + intros s t. erewrite added_body_action by eassumption.
      intros [= <-]. apply elem_of_app. right. apply list_elem_of_here.
  - intros name new_info action Hp Ho Hn Hdiff. rewrite Hp in H3.
    eapply (for_each_queued _ _ _ _ _ name); [apply proto_body_queue| | |exact H3].
    + unfold added_protos. rewrite elem_of_elements, elem_of_difference.
      rewrite !elem_of_dom, Ho, Hn. split; [eauto|]. intros [? [=]].
    + intros s t. erewrite proto_body_action by eassumption.
      intros [= <-]. apply elem_of_app. right. apply list_elem_of_here.
Qed.

(** A revived document whose version moved at patch level at most is
    skipped when editorial changes are not announced. *)
Lemma common_body_revived id old_info new_info old_version new_version updates :
  include_editorial args = false ->
  old_accepted !! id = Some old_info ->
  new_accepted !! id = Some new_info ->
  status old_info = Val Status.DEFERRED ->
  status new_info = Val Status.EXPERIMENTAL ->
  version_of old_info = Some old_version ->
  version_of new_info = Some new_version ->
  component 0 old_version = component 0 new_version ->
  component 1 old_version = component 1 new_version ->
  common_body args old_accepted new_accepted id updates = Ok updates.
Proof.
  intros He Ho Hn Hso Hsn Hvo Hvn H0 H1. unfold common_body, dict_getitem.
  rewrite Ho, Hn. simpl.
  rewrite (diff_infos_deferred_experimental _ _ Hso Hsn). simpl.
  rewrite (extract_version_of _ _ Hvo), (extract_version_of _ _ Hvn). simpl.
  rewrite filter_bump_level_versions, He.
  rewrite bool_decide_eq_true_2 by tauto. reflexivity.
Qed.

(** C8: a document of both snapshots that goes from deferred to experimental
    with a version unchanged in its first two components is an [UPDATE] that
    the filter classifies as editorial (it answers with the editorial flag):
    with [include_editorial] off its pass leaves the queue as it is, and the
    queue of [main] has no entry for it. *)
Theorem revived_document_unannounced
    id old_info new_info old_version new_version :
  include_editorial args = false ->
  old_accepted !! id = Some old_info ->
  new_accepted !! id = Some new_info ->
  status old_info = Val Status.DEFERRED ->
  status new_info = Val Status.EXPERIMENTAL ->
  version_of old_info = Some old_version ->
  version_of new_info = Some new_version ->
  component 0 old_version = component 0 new_version ->
  component 1 old_version = component 1 new_version ->
  diff_infos old_info new_info = Ok (Some Action.UPDATE) /\
  (forall e ne,
      filter_bump_level (Some old_version) (Some new_version) e ne = Ok e) /\
  filter_bump_level (Some old_version) (Some new_version)
    (include_editorial args) (include_non_editorial args) = Ok false /\
  (forall queue,
      common_body args old_accepted new_accepted id queue = Ok queue) /\
  (forall updates,
      main_updates args old_accepted new_accepted old_proto new_proto
      = Ok updates ->
      forall action info, (XepNumber id, action, info) ∉ updates).
Proof.
  intros He Ho Hn Hso Hsn Hvo Hvn H0 H1.
  assert (forall queue,
             common_body args old_accepted new_accepted id queue = Ok queue)
    as Hbody by (intros; eapply common_body_revived; eassumption).
  split; [now apply diff_infos_deferred_experimental|].
  split.
  { intros e ne. rewrite filter_bump_level_versions.
    rewrite bool_decide_eq_true_2 by tauto. reflexivity. }
  split.
  { rewrite filter_bump_level_versions, He.
    rewrite bool_decide_eq_true_2 by tauto. reflexivity. }
  split; [exact Hbody|].
  intros updates Hmain action info Hin.
  destruct (main_updates_loops _ _ _ _ _ _ Hmain)
    as (k1 & k2 & k3 & -> & Hl1 & _ & _ & _ & Hk2 & Hk3).
  apply elem_of_app in Hin as [Hin|Hin].
  - revert action info Hin.
    refine (for_each_invariant _
              (fun s => forall action info, (XepNumber id, action, info) ∉ s)
              _ _ _ _ _ Hl1).
    + intros x s t _ Hs Hx action info Hin.
      destruct (decide (x = id)) as [->|Hne].
      * rewrite Hbody in Hx. injection Hx as <-. now apply (Hs action info).
      * destruct (common_body_queue _ _ _ _ _ _ Hx) as [->|(a & i & ->)];
          [now apply (Hs action info)|].
        apply elem_of_app in Hin as [Hin|Hin]; [now apply (Hs action info)|].
        apply list_elem_of_singleton in Hin. congruence.
    + intros action info Hin. now apply not_elem_of_nil in Hin.
  - assert (XepNumber id ∈ (k2 ++ k3).*1.*1) as Hid.
    { apply (list_elem_of_fmap_2 fst) in Hin.
      apply (list_elem_of_fmap_2 fst) in Hin. exact Hin. }
    rewrite fmap_app, fmap_app in Hid. apply elem_of_app in Hid as [Hid|Hid].
    + apply (sublist_subseteq _ _ Hk2) in Hid.
      apply list_elem_of_fmap in Hid as (n & [= <-] & Hid).
      unfold added_xeps in Hid.
      rewrite elem_of_elements, elem_of_difference, !elem_of_dom in Hid.
      destruct Hid as [_ Hid]. apply Hid. eauto.
    + apply (sublist_subseteq _ _ Hk3) in Hid.
      destruct (include_protoxep args); [|now apply not_elem_of_nil in Hid].
      apply list_elem_of_fmap in Hid as (? & [=] & _).
Qed.

End Significance.

Lemma significance_filter_scope_witness :
  (XepNumber 46, Action.NEW, Samples.xep 46 Status.EXPERIMENTAL "0.1")
    ∈ [ (XepNumber 45, Action.LAST_CALL, Samples.proposed 45 "1.0" "2024-01-31");
        (XepNumber 46, Action.NEW, Samples.xep 46 Status.EXPERIMENTAL "0.1") ].
Proof.
  apply (significance_filter_scope (H := Samples.xeplib)
           {| include_protoxep := true;
              include_editorial := false;
              include_non_editorial := false |}
           {[ 45 := Samples.xep 45 Status.EXPERIMENTAL "1.0" ]}
           {[ 45 := Samples.proposed 45 "1.0" "2024-01-31";
              46 := Samples.xep 46 Status.EXPERIMENTAL "0.1" ]}
           ∅ ∅); reflexivity.
Defined.

Lemma revived_document_unannounced_witness :
  main_updates (H := Samples.xeplib) Samples.no_editorial
    {[ 45 := Samples.xep 45 Status.DEFERRED "1.2.3" ]}
    {[ 45 := Samples.xep 45 Status.EXPERIMENTAL "1.2.9" ]} ∅ ∅
  = Ok [] /\
  (XepNumber 45, Action.UPDATE, Samples.xep 45 Status.EXPERIMENTAL "1.2.9")
    ∉ ([] : list Update).
Proof.
  split; [reflexivity|].
  apply (revived_document_unannounced (H := Samples.xeplib) Samples.no_editorial
           {[ 45 := Samples.xep 45 Status.DEFERRED "1.2.3" ]}
           {[ 45 := Samples.xep 45 Status.EXPERIMENTAL "1.2.9" ]} ∅ ∅
           45 (Samples.xep 45 Status.DEFERRED "1.2.3")
           (Samples.xep 45 Status.EXPERIMENTAL "1.2.9") "1.2.3" "1.2.9");
    reflexivity.
Defined.

(** ** Properties of the composers *)

Section ComposerProperties.
Context `{XepLib} `{TextWrap}.

Lemma format_app t1 t2 kwargs :
  format (t1 ++ t2) kwargs
  = (let* a := format t1 kwargs in
     let* b := format t2 kwargs in
     Ok (a +:+ b)).
Proof.
  induction t1 as [|p t1 IH]; simpl.
  - destruct (format t2 kwargs); reflexivity.
  - destruct (format_piece kwargs p); simpl; [|reflexivity].
    rewrite IH. destruct (format t1 kwargs); simpl; [|reflexivity].
    destruct (format t2 kwargs); simpl; [|reflexivity].
    now rewrite append_assoc.
Qed.

(** A template that ends with literal text formats to a text that ends with
    it. *)
Lemma format_ends_with base lit kwargs text :
  format (base ++ [Lit lit]) kwargs = Ok text -> ends_with lit text.
Proof.
  rewrite format_app. destruct (format base kwargs) as [pre|]; [|discriminate].
  simpl. rewrite append_nil_r. intros [= <-]. now exists pre.
Qed.

Lemma STALENOTE_lines :
  STALENOTE = String LF (String LF STALENOTE_LINE).
Proof. reflexivity. Qed.

(** The wrapped lines of a text that ends with the note end with an empty
    line and the wrapped note. *)
Lemma wrapped_lines_stalenote pre :
  wrapped_lines (pre +:+ STALENOTE)
  = wrapped_lines pre ++ EmptyString :: textwrap_wrap STALENOTE_LINE.
Proof.
  unfold wrapped_lines. rewrite STALENOTE_lines, split_app.
  rewrite <- (append_nil_l (String LF STALENOTE_LINE)), split_app.
  replace (split LF STALENOTE_LINE) with [STALENOTE_LINE] by reflexivity.
  rewrite !fmap_app, !concat_app. f_equal.
  change (split LF EmptyString) with [EmptyString].
  cbn [fmap list_fmap concat app].
  rewrite (bool_decide_eq_true_2 (EmptyString = EmptyString)) by reflexivity.
  rewrite (bool_decide_eq_false_2 (STALENOTE_LINE = EmptyString))
    by discriminate.
  cbn [app]. f_equal. apply app_nil_r.
Qed.

(** Two texts that end alike, read from the end. *)
Lemma ends_with_reverse a b s :
  ends_with a s -> ends_with b s ->
  exists k l,
    reverse (list_ascii_of_string a) ++ k
    = reverse (list_ascii_of_string b) ++ l.
Proof.
  intros [p ->] [q Hq].
  apply (f_equal list_ascii_of_string) in Hq.
  rewrite !list_ascii_of_string_app in Hq.
  apply (f_equal reverse) in Hq. rewrite !reverse_app in Hq. eauto.
Qed.

Lemma proto_text_no_stalenote kwargs text :
  format MAIL_PROTO_TEMPLATE kwargs = Ok text -> ~ ends_with STALENOTE text.
Proof.
  intros Hfmt Hnote.
  apply (format_ends_with (removelast MAIL_PROTO_TEMPLATE)) in Hfmt.
  destruct (ends_with_reverse _ _ _ Hfmt Hnote) as (k & l & Heq).
  vm_compute in Heq. discriminate Heq.
Qed.

Lemma last_call_text_no_stalenote kwargs text :
  format MAIL_LAST_CALL_TEMPLATE kwargs = Ok text -> ~ ends_with STALENOTE text.
Proof.
  intros Hfmt Hnote.
  apply (format_ends_with (removelast MAIL_LAST_CALL_TEMPLATE)) in Hfmt.
  destruct (ends_with_reverse _ _ _ Hfmt Hnote) as (k & l & Heq).
  vm_compute in Heq. discriminate Heq.
Qed.

Lemma body_template_of_stalenote action :
  action <> Action.LAST_CALL ->
  exists base, body_template_of action = base ++ [Lit STALENOTE].
Proof.
  intros Hne. unfold body_template_of.
  case_bool_decide; [now eexists|].
  rewrite bool_decide_eq_false_2 by assumption. now eexists.
Qed.

End ComposerProperties.

(** The sentence of the note is in the literal text of the two templates
    that end with it. *)
Example stalenote_in_templates :
  contains STALENOTE_LINE (literal_text MAIL_NONPROTO_TEMPLATE) = true /\
  contains STALENOTE_LINE (literal_text MAIL_DEFER_TEMPLATE) = true.
Proof. split; vm_compute; reflexivity. Qed.

Section MailProperties.
Context `{XepLib} `{TextWrap} `{HeaderRegistry}.



Lemma format_04d_ok number number04 :
  getitem (number : Field Ident) = Ok number04 ->
  forall s, format_04d number04 = Ok s ->
  exists n, number = Val (XepNumber n) /\ s = format_04d_int n.
Proof.
  destruct number as [| |[n|name]]; simpl; intros [= <-]; simpl;
    intros s [= <-]. eauto.
Qed.

Lemma status_dot_value_ok (status : Field Status.t) value v :
  getitem status = Ok value -> status_dot_value value = Ok v ->
  exists s, status = Val s /\ v = status_value s.
Proof.
  destruct status as [| |s]; simpl; intros [= <-]; simpl; intros [= <-]. eauto.
Qed.

Lemma getitem_ok {A} (f : Field A) v :
  getitem f = Ok v -> f <> Missing /\ v = get f.
Proof. destruct f; simpl; intros [= <-]; split; congruence. Qed.

(** The computation that is bound first in [t]. *)
Local Ltac first_bound t :=
  lazymatch t with
  | exc_bind ?m _ => first_bound m
  | _ => t
  end.

(** A composer that returns has passed its next step: name what the step
    gave. *)
Local Ltac passed H :=
  lazymatch goal with
  | |- exc_bind ?m _ = Ok _ -> _ =>
      let m' := first_bound m in
      destruct m' eqn:H; cbn [exc_bind]; [|discriminate]
  end.

(** What a composed proto mail holds. *)
Lemma make_proto_mail_ok info mail :
  make_proto_mail info = Ok mail ->
  exists subject s text kwargs
         h_subject h_action h_title h_type h_status h_url h_approver,
    status info = Val s /\
    title info <> Missing /\
    proto_kwargs info = Ok kwargs /\
    format SUBJECT_PROTO_TEMPLATE kwargs = Ok subject /\
    format MAIL_PROTO_TEMPLATE kwargs = Ok text /\
    header_store_parse "Subject" (Some subject) = Ok h_subject /\
    header_store_parse "XSF-XEP-Action" (Some "PROTO") = Ok h_action /\
    header_store_parse "XSF-XEP-Title" (get (title info)) = Ok h_title /\
    header_store_parse "XSF-XEP-Type" (get (type info)) = Ok h_type /\
    header_store_parse "XSF-XEP-Status" (Some (status_value s))
    = Ok h_status /\
    header_store_parse "XSF-XEP-Url"
      (Some (XEP_URL_PREFIX +:+ "inbox/"
             +:+ py_str (get (protoname info)) +:+ ".html"))
    = Ok h_url /\
    header_store_parse "XSF-XEP-Approver" (get (approver info))
    = Ok h_approver /\
    mail = {| headers :=
                [ ("Subject", h_subject);
                  ("XSF-XEP-Action", h_action);
                  ("XSF-XEP-Title", h_title);
                  ("XSF-XEP-Type", h_type);
                  ("XSF-XEP-Status", h_status);
                  ("XSF-XEP-Url", h_url);
                  ("XSF-XEP-Approver", h_approver) ];
              content := Some (wraptext text) |}.
Proof.
  unfold make_proto_mail, set_header.
  passed Hkw. passed Hsubject. passed Hh1. passed Hh2.
  passed Ht. passed Hh3. passed Hty. passed Hh4.
  passed Hs. passed Hv. passed Hh5. passed Hh6. passed Hh7. passed Htext.
  intros [= <-].
  destruct (status_dot_value_ok _ _ _ Hs Hv) as (s & Hs' & ->).
  apply getitem_ok in Ht as [Ht ->]. apply getitem_ok in Hty as [_ ->].
  unfold proto_kwargs in Hkw.
  destruct (getitem (approver info)) as [ap|] eqn:Hap; [|discriminate].
  destruct (getitem (protoname info)) as [pn|] eqn:Hpn; [|discriminate].
  apply getitem_ok in Hap as [_ ->]. apply getitem_ok in Hpn as [_ ->].
  cbn [exc_bind] in Hkw. injection Hkw as <-.
  cbn [kw_url kw_approver get] in Hh6, Hh7.
  assert (get (bound (get (approver info))) = get (approver info)) as Hbound
    by now destruct (approver info).
  rewrite Hbound in Hh7.
  do 11 eexists.
  repeat (split; [first [eassumption | reflexivity]|]).
  reflexivity.
Qed.

(** What a composed mail of the other kind holds. *)
Lemma make_nonproto_mail_ok action info mail :
  make_nonproto_mail action info = Ok mail ->
  exists subject n s text kwargs
         h_subject h_action h_title h_type h_status h_number h_url,
    number info = Val (XepNumber n) /\
    status info = Val s /\
    title info <> Missing /\
    nonproto_kwargs action info = Ok kwargs /\
    format SUBJECT_NONPROTO_TEMPLATE kwargs = Ok subject /\
    format (body_template_of action) kwargs = Ok text /\
    header_store_parse "Subject" (Some subject) = Ok h_subject /\
    header_store_parse "XSF-XEP-Action" (Some (action_value action))
    = Ok h_action /\
    header_store_parse "XSF-XEP-Title" (get (title info)) = Ok h_title /\
    header_store_parse "XSF-XEP-Type" (get (type info)) = Ok h_type /\
    header_store_parse "XSF-XEP-Status" (Some (status_value s))
    = Ok h_status /\
    header_store_parse "XSF-XEP-Number" (Some (format_04d_int n))
    = Ok h_number /\
    header_store_parse "XSF-XEP-Url"
      (Some (XEP_URL_PREFIX +:+ "xep-" +:+ format_04d_int n +:+ ".html"))
    = Ok h_url /\
    mail = {| headers :=
                [ ("Subject", h_subject);
                  ("XSF-XEP-Action", h_action);
                  ("XSF-XEP-Title", h_title);
                  ("XSF-XEP-Type", h_type);
                  ("XSF-XEP-Status", h_status);
                  ("XSF-XEP-Number", h_number);
                  ("XSF-XEP-Url", h_url) ];
              content := Some (wraptext text) |}.
Proof.
  unfold make_nonproto_mail, set_header.
  passed Hkw. passed Hsubject. passed Hh1. passed Hh2.
  passed Ht. passed Hh3. passed Hty. passed Hh4.
  passed Hs. passed Hv. passed Hh5.
  passed Hn. passed Hn04. passed Hh6. passed Hh7. passed Htext.
  intros [= <-].
  destruct (status_dot_value_ok _ _ _ Hs Hv) as (s & Hs' & ->).
  destruct (format_04d_ok _ _ Hn _ Hn04) as (n & Hn' & ->).
  apply getitem_ok in Ht as [Ht ->]. apply getitem_ok in Hty as [_ ->].
  unfold nonproto_kwargs in Hkw. rewrite Hn' in Hkw.
  cbn [getitem format_04d exc_bind] in Hkw. injection Hkw as <-.
  cbn [kw_url get] in Hh7.
  do 12 eexists.
  repeat (split; [first [eassumption | reflexivity]|]).
  reflexivity.
Qed.


(** C10: the text wrapped into the body of a mail ends with [STALENOTE] on
    every mail other than a proto mail and a last call (the update and the
    defer mails among them), and the body then ends with an empty line and
    the wrapped note; the text of a proto mail and of a last call does not end
    with [STALENOTE], and the literal text of their templates does not hold
    its sentence. *)
Theorem stalenote_placement action info mail :
  make_mail action info = Ok mail ->
  (exists base, MAIL_NONPROTO_TEMPLATE = base ++ [Lit STALENOTE]) /\
  (exists base, MAIL_DEFER_TEMPLATE = base ++ [Lit STALENOTE]) /\
  contains STALENOTE_LINE (literal_text MAIL_PROTO_TEMPLATE) = false /\
  contains STALENOTE_LINE (literal_text MAIL_LAST_CALL_TEMPLATE) = false /\
  exists kwargs text,
    format (if bool_decide (action = Action.PROTO) then MAIL_PROTO_TEMPLATE
            else body_template_of action) kwargs = Ok text /\
    content mail = Some (wraptext text) /\
    if bool_decide (action = Action.PROTO \/ action = Action.LAST_CALL)
    then ~ ends_with STALENOTE text
    else
      exists pre,
        text = pre +:+ STALENOTE /\
        wraptext text
        = String.concat (String LF EmptyString)
            (wrapped_lines pre ++ EmptyString :: textwrap_wrap STALENOTE_LINE).
Proof.
  intros Hmail.
  split; [now eexists|]. split; [now eexists|].
  split; [vm_compute; reflexivity|]. split; [vm_compute; reflexivity|].
  unfold make_mail in Hmail. case_bool_decide as Hproto.
  - apply make_proto_mail_ok in Hmail
      as (subject & s & text & kwargs & h1 & h2 & h3 & h4 & h5 & h6 & h7
          & _ & _ & _ & _ & Htext & _ & _ & _ & _ & _ & _ & _ & ->).
    exists kwargs, text. split; [exact Htext|]. split; [reflexivity|].
    rewrite bool_decide_eq_true_2 by tauto.
    eapply proto_text_no_stalenote, Htext.
  - apply make_nonproto_mail_ok in Hmail
      as (subject & n & s & text & kwargs & h1 & h2 & h3 & h4 & h5 & h6 & h7
          & _ & _ & _ & _ & _ & Htext & _ & _ & _ & _ & _ & _ & _ & ->).
    exists kwargs, text. split; [exact Htext|]. split; [reflexivity|].
    case_bool_decide as Hcase.
    + destruct Hcase as [? | ->]; [tauto|].
      eapply last_call_text_no_stalenote, Htext.
    + destruct (body_template_of_stalenote action) as [base Hbase]; [tauto|].
      rewrite Hbase in Htext. apply format_ends_with in Htext as [pre ->].
      exists pre. split; [reflexivity|].
      unfold wraptext. now rewrite wrapped_lines_stalenote.
Qed.

End MailProperties.


(** A title in which text follows a line feed: the assignment of the subject
    raises, and no mail is composed. *)
Example line_feed_title_refused :
  make_mail (H := Samples.xeplib) (H0 := Samples.keep_lines)
    (H1 := Registry.registry)
    Action.UPDATE (Registry.titled ("Sample" +:+ String LF "Extension"))
  = Raise ValueError.
Proof. vm_compute. reflexivity. Qed.


Lemma stalenote_placement_witness :
  exists mail,
    make_mail (H := Samples.xeplib) (H0 := Samples.keep_lines)
      (H1 := Registry.registry)
      Action.DEFER (Samples.xep 45 Status.DEFERRED "1.2.3") = Ok mail /\
    contains STALENOTE_LINE (literal_text MAIL_PROTO_TEMPLATE) = false.
Proof.
  eexists. split.
  - vm_compute. reflexivity.
  - refine (proj1 (proj2 (proj2
              (stalenote_placement (H := Samples.xeplib)
                 (H0 := Samples.keep_lines) (H1 := Registry.registry)
                 Action.DEFER
                 (Samples.xep 45 Status.DEFERRED "1.2.3") _ _)))).
    vm_compute. reflexivity.
Defined.

(** ** More on the classifier *)

Section ClassifierEdges.
Context `{XepLib}.

(** X1: against the record of [dummy_info], a record whose status is set is
    [PROTO] when that status is [PROTO] and [NEW] otherwise, whatever else
    the two records hold. *)
Theorem diff_infos_dummy number new s :
  status new = Val s ->
  diff_infos (dummy_info number) new
  = Ok (Some (if bool_decide (s = Status.PROTO) then Action.PROTO
              else Action.NEW)).
Proof.
  intros Hs. unfold diff_infos. rewrite Hs. simpl.
  destruct s; reflexivity.
Qed.

(** X2: [diff_infos] raises [KeyError] on a record with no [status] entry,
    and on two proposed records one of which has no [last_call] entry. *)
Theorem diff_infos_key_error old new :
  status old = Missing \/ status new = Missing \/
  (status old = Val Status.PROPOSED /\ status new = Val Status.PROPOSED /\
   (last_call old = Missing \/ last_call new = Missing)) ->
  diff_infos old new = Raise KeyError.
Proof.
  unfold diff_infos. intros [Ho|[Hn|(Ho & Hn & Hl)]].
  - now rewrite Ho.
  - rewrite Hn. now destruct (status old).
  - rewrite Ho, Hn. simpl.
    destruct Hl as [Hl|Hl]; rewrite Hl; [reflexivity|].
    now destruct (last_call old).
Qed.

(** X3: a changed last call on a proposed document is a [LAST_CALL] whatever
    the two revisions are: a version change of the same comparison is not
    reported, and the revisions are not read. *)
Theorem diff_infos_last_call_first old new :
  status old = Val Status.PROPOSED ->
  status new = Val Status.PROPOSED ->
  last_call old <> Missing -> last_call new <> Missing ->
  get (last_call old) <> get (last_call new) ->
  diff_infos old new = Ok (Some Action.LAST_CALL).
Proof.
  intros Ho Hn Hlo Hln Hne. unfold diff_infos. rewrite Ho, Hn. simpl.
  rewrite (getitem_get _ Hlo), (getitem_get _ Hln). simpl.
  now rewrite bool_decide_eq_true_2.
Qed.

(** X4: when the statuses differ, the result is decided by the two statuses
    alone: last calls and revisions are not read. *)
Theorem diff_infos_status_only old new old' new' :
  status old = status old' ->
  status new = status new' ->
  get (status old) <> get (status new) ->
  diff_infos old new = diff_infos old' new'.
Proof.
  intros Ho Hn Hne. unfold diff_infos. rewrite <- Ho, <- Hn.
  destruct (status old) as [| |so]; [reflexivity|..];
    (destruct (status new) as [| |sn]; [reflexivity|..]); simpl in *;
    try congruence;
    rewrite (bool_decide_eq_true_2 (_ <> _)) by congruence; reflexivity.
Qed.

End ClassifierEdges.

Lemma diff_infos_dummy_witness :
  diff_infos (H := Samples.xeplib) (dummy_info (XepNumber 45))
    (Samples.xep 45 Status.DEFERRED "1.0") = Ok (Some Action.NEW).
Proof.
  apply (diff_infos_dummy (H := Samples.xeplib) (XepNumber 45)
           (Samples.xep 45 Status.DEFERRED "1.0") Status.DEFERRED).
  reflexivity.
Defined.

Lemma diff_infos_key_error_witness :
  diff_infos (H := Samples.xeplib)
    (Samples.proposed 45 "1.0" "2024-01-31")
    {| status := Val Status.PROPOSED; accepted := Val true;
       number := Val (XepNumber 45); protoname := Missing;
       title := Missing; abstract := Missing; type := Missing;
       approver := Missing; last_call := Missing;
       last_revision := Missing |}
  = Raise KeyError.
Proof.
  apply (diff_infos_key_error (H := Samples.xeplib)).
  right; right. split; [reflexivity|]. split; [reflexivity|]. now right.
Defined.

Lemma diff_infos_last_call_first_witness :
  diff_infos (H := Samples.xeplib)
    (Samples.proposed 45 "1.0" "2024-01-31")
    (Samples.proposed 45 "2.0" "2024-02-29")
  = Ok (Some Action.LAST_CALL).
Proof.
  apply (diff_infos_last_call_first (H := Samples.xeplib));
    first [reflexivity | discriminate].
Defined.

Lemma diff_infos_status_only_witness :
  diff_infos (H := Samples.xeplib)
    (Samples.xep 45 Status.DEFERRED "1.0")
    (Samples.xep 45 Status.EXPERIMENTAL "1.0")
  = diff_infos (H := Samples.xeplib)
      (Samples.xep 45 Status.DEFERRED "1.0")
      (Samples.xep 45 Status.EXPERIMENTAL "2.0").
Proof.
  apply (diff_infos_status_only (H := Samples.xeplib));
    first [reflexivity | discriminate].
Defined.

(** ** More on the reporting loop *)

Section ForEachShapes.
Context {A S : Type} (body : A -> S -> Exc S).

Lemma for_each_skip l s :
  (forall x s, x ∈ l -> body x s = Ok s) -> for_each body l s = Ok s.
Proof.
  induction l as [|y l IH]; intros Hbody; [reflexivity|].
  simpl. rewrite Hbody by apply list_elem_of_here. simpl.
  apply IH. intros x u Hx. apply Hbody. now apply list_elem_of_further.
Qed.

End ForEachShapes.

Lemma for_each_append {A B} (body : A -> list B -> Exc (list B))
    (entry : A -> B) l s :
  (forall x s, x ∈ l -> body x s = Ok (s ++ [entry x])) ->
  for_each body l s = Ok (s ++ (entry <$> l)).
Proof.
  revert s. induction l as [|y l IH]; intros s Hbody; simpl.
  - now rewrite app_nil_r.
  - rewrite Hbody by apply list_elem_of_here. simpl.
    rewrite IH.
    + now rewrite <- app_assoc.
    + intros x u Hx. apply Hbody. now apply list_elem_of_further.
Qed.

Section Snapshots.
Context `{XepLib}.
Variable args : Args.

Lemma diff_infos_same info : wf_info info -> diff_infos info info = Ok None.
Proof.
  intros Hwf. rewrite diff_infos_same_status by auto.
  unfold same_status_rules, first_match.
  rewrite (bool_decide_eq_false_2 (_ /\ _)) by tauto.
  rewrite (bool_decide_eq_false_2 (_ <> _)) by tauto.
  reflexivity.
Qed.

(** X5: two snapshots that are the same queue nothing, for any include flags,
    when the accepted records have the shape the classifier reads. *)
Theorem main_updates_same_snapshot
    (accepted : gmap Z Info) (proto : gmap string Info) :
  (forall id info, accepted !! id = Some info -> wf_info info) ->
  main_updates args accepted accepted proto proto = Ok [].
Proof.
  intros Hwf. unfold main_updates.
  rewrite for_each_skip.
  - simpl.
    assert (added_xeps accepted accepted = ∅) as ->
      by (unfold added_xeps; set_solver).
    assert (added_protos proto proto = ∅) as ->
      by (unfold added_protos; set_solver).
    rewrite !elements_empty. simpl. now destruct (include_protoxep args).
  - intros id s Hid. unfold common_xeps in Hid.
    rewrite elem_of_elements, elem_of_intersection, elem_of_dom in Hid.
    destruct Hid as [[info Hinfo] _].
    unfold common_body, dict_getitem. rewrite Hinfo. simpl.
    rewrite (diff_infos_same _ (Hwf _ _ Hinfo)). reflexivity.
Qed.

Lemma diff_infos_dummy_entry number info s :
  status info = Val s ->
  diff_infos (dummy_info number) info = Ok (Some (first_entry number info).1.2).
Proof.
  intros Hs. unfold diff_infos, first_entry. rewrite Hs. simpl.
  destruct s; reflexivity.
Qed.

(** X6: with empty old snapshots, [main] queues one entry for each document
    of the new snapshot (and for each of its ProtoXEPs, when they are
    enabled): [PROTO] for a status [PROTO] and [NEW] for every other status.
    No include flag suppresses any of them and nothing raises, as long as
    every record has its status set. *)
Theorem main_updates_first_run
    (new_accepted : gmap Z Info) (new_proto : gmap string Info) :
  (forall id info, new_accepted !! id = Some info ->
     exists s, status info = Val s) ->
  (forall name info, new_proto !! name = Some info ->
     exists s, status info = Val s) ->
  exists updates,
    main_updates args ∅ new_accepted ∅ new_proto = Ok updates /\
    length updates
    = (size new_accepted
       + if include_protoxep args then size new_proto else 0)%nat /\
    (forall id info,
        new_accepted !! id = Some info ->
        first_entry (XepNumber id) info ∈ updates) /\
    (forall name info,
        include_protoxep args = true ->
        new_proto !! name = Some info ->
        first_entry (ProtoName name) info ∈ updates).
Proof.
  intros Hacc Hproto. unfold main_updates.
  assert (common_xeps ∅ new_accepted = ∅) as ->
    by (unfold common_xeps; set_solver).
  assert (added_xeps ∅ new_accepted = dom new_accepted) as ->
    by (unfold added_xeps; set_solver).
  assert (added_protos ∅ new_proto = dom new_proto) as ->
    by (unfold added_protos; set_solver).
  rewrite elements_empty. simpl.
  set (entry_a := fun id : Z =>
         first_entry (XepNumber id) (default (dummy_info (XepNumber id))
                                       (new_accepted !! id))).
  set (entry_p := fun name : string =>
         first_entry (ProtoName name) (default (dummy_info (ProtoName name))
                                         (new_proto !! name))).
  rewrite (for_each_append _ entry_a).
  2:{ intros id s Hid. rewrite elem_of_elements, elem_of_dom in Hid.
      destruct Hid as [info Hinfo]. destruct (Hacc _ _ Hinfo) as [st Hst].
      unfold added_body, dict_getitem, entry_a. rewrite Hinfo. simpl.
      rewrite (diff_infos_dummy_entry _ _ _ Hst). reflexivity. }
  simpl.
  assert (forall s,
             for_each (proto_body new_proto) (elements (dom new_proto)) s
             = Ok (s ++ (entry_p <$> elements (dom new_proto)))) as Hp.
  { intros s. apply for_each_append.
    intros name u Hname. rewrite elem_of_elements, elem_of_dom in Hname.
    destruct Hname as [info Hinfo]. destruct (Hproto _ _ Hinfo) as [st Hst].
    unfold proto_body, dict_getitem, entry_p. rewrite Hinfo. simpl.
    pose proof (diff_infos_dummy_entry (ProtoName "xxxx") _ _ Hst) as Hd.
    rewrite Hd. reflexivity. }
  assert (forall id info, new_accepted !! id = Some info ->
            first_entry (XepNumber id) info
              ∈ entry_a <$> elements (dom new_accepted)) as Hin_a.
  { intros id info Hinfo. apply list_elem_of_fmap. exists id.
    split; [unfold entry_a; now rewrite Hinfo|].
    apply elem_of_elements, elem_of_dom. eauto. }
  destruct (include_protoxep args) eqn:Hinc.
  - rewrite Hp. eexists. split; [reflexivity|].
    split; [|split].
    + rewrite length_app, !length_fmap.
      change (length (elements (dom new_accepted)))
        with (size (dom new_accepted)).
      change (length (elements (dom new_proto))) with (size (dom new_proto)).
      now rewrite !size_dom.
    + intros id info Hinfo. apply elem_of_app. left. now apply Hin_a.
    + intros name info _ Hinfo. apply elem_of_app. right.
      apply list_elem_of_fmap. exists name.
      split; [unfold entry_p; now rewrite Hinfo|].
      apply elem_of_elements, elem_of_dom. eauto.
  - eexists. split; [reflexivity|].
    split; [|split].
    + rewrite length_fmap.
      change (length (elements (dom new_accepted)))
        with (size (dom new_accepted)).
      rewrite size_dom. lia.
    + intros id info Hinfo. now apply Hin_a.
    + intros name info [=].
Qed.

End Snapshots.

Lemma main_updates_same_snapshot_witness :
  main_updates (H := Samples.xeplib) Samples.no_editorial
    {[ 45 := Samples.xep 45 Status.EXPERIMENTAL "1.0";
       46 := Samples.proposed 46 "1.1" "2024-01-31" ]}
    {[ 45 := Samples.xep 45 Status.EXPERIMENTAL "1.0";
       46 := Samples.proposed 46 "1.1" "2024-01-31" ]}
    {[ "sample" := Samples.protoxep "sample" ]}
    {[ "sample" := Samples.protoxep "sample" ]}
  = Ok [].
Proof.
  apply (main_updates_same_snapshot (H := Samples.xeplib)).
  intros id info Hinfo.
  apply lookup_insert_Some in Hinfo as [[_ <-]|[_ Hinfo]];
    [repeat split; discriminate|].
  apply lookup_singleton_Some in Hinfo as [_ <-].
  repeat split; discriminate.
Defined.

Lemma main_updates_first_run_witness :
  exists updates,
    main_updates (H := Samples.xeplib) Samples.no_editorial
      ∅ {[ 45 := Samples.xep 45 Status.EXPERIMENTAL "1.0" ]}
      ∅ {[ "sample" := Samples.protoxep "sample" ]} = Ok updates /\
    length updates = 2%nat.
Proof.
  destruct (main_updates_first_run (H := Samples.xeplib) Samples.no_editorial
              {[ 45 := Samples.xep 45 Status.EXPERIMENTAL "1.0" ]}
              {[ "sample" := Samples.protoxep "sample" ]})
    as (updates & Hmain & Hlen & _).
  - intros id info Hinfo. apply lookup_singleton_Some in Hinfo as [_ <-].
    now eexists.
  - intros id info Hinfo. apply lookup_singleton_Some in Hinfo as [_ <-].
    now eexists.
  - exists updates. split; [exact Hmain|exact Hlen].
Defined.

(** ** More on the significance filter *)

(** X7: the two include flags only ever let more through: with both on,
    every comparison that has a result passes; with both off, none does; and
    a comparison that passes still passes when a flag is turned on. *)
Theorem filter_bump_level_flags old new e ne b :
  filter_bump_level old new e ne = Ok b ->
  filter_bump_level old new true true = Ok true /\
  filter_bump_level old new false false = Ok false /\
  (forall e' ne' : bool,
      (e = true -> e' = true) -> (ne = true -> ne' = true) ->
      b = true -> filter_bump_level old new e' ne' = Ok true).
Proof.
  intros Hb.
  assert (exists c, forall e ne,
             filter_bump_level old new e ne = Ok (permitted c e ne))
    as [c Hc].
  { destruct old as [old|], new as [new|].
    - eexists. intros. apply filter_bump_level_versions.
    - rewrite filter_bump_level_no_new in Hb. discriminate.
    - eexists. intros. apply filter_bump_level_no_old.
    - eexists. intros. apply filter_bump_level_no_old. }
  rewrite Hc in Hb. injection Hb as <-.
  split; [rewrite Hc; now destruct c|].
  split; [rewrite Hc; now destruct c|].
  intros e' ne' He Hne Hp. rewrite Hc. f_equal.
  destruct c; simpl in *; auto.
Qed.

Lemma filter_bump_level_flags_witness :
  filter_bump_level (Some "1.2.3") (Some "1.3.0") true true = Ok true.
Proof.
  refine (proj1 (filter_bump_level_flags
                   (Some "1.2.3") (Some "1.3.0") false true true _)).
  reflexivity.
Defined.

Lemma length_split_go sep s :
  length (split_go sep s).2 = count_char sep s.
Proof.
  induction s as [|c s IH]; [reflexivity|].
  simpl. destruct (split_go sep s) as [p ps].
  destruct (Ascii.eqb c sep); simpl in *; congruence.
Qed.

Lemma length_split sep s : length (split sep s) = S (count_char sep s).
Proof.
  unfold split. pose proof (length_split_go sep s) as Hlen.
  destruct (split_go sep s). simpl in *. congruence.
Qed.

(** X8: a version is decomposed into as many components as it has dots, plus
    one, and never fewer than three; with two dots or more nothing is
    added. *)
Theorem decompose_version_length v :
  exists d,
    decompose_version (Some v) = Ok d /\
    length d = Nat.max 3 (S (count_char "." v)) /\
    ((2 <= count_char "." v)%nat -> d = split "." v).
Proof.
  eexists. split; [apply decompose_version_padded|].
  rewrite length_app, length_replicate, length_split.
  split; [lia|]. intros Hdots.
  replace (3 - S (count_char "." v))%nat with 0%nat by lia.
  apply app_nil_r.
Qed.

(** ** More on the wrapping of the body *)

Section WrapProperties.
Context `{TextWrap}.

Lemma concat_keep (lines : list string) :
  (forall line, line ∈ lines -> line <> EmptyString ->
     textwrap_wrap line = [line]) ->
  concat ((fun line => if bool_decide (line = EmptyString) then [line]
                       else textwrap_wrap line) <$> lines)
  = lines.
Proof.
  induction lines as [|l lines IH]; intros Hkeep; [reflexivity|].
  cbn [fmap list_fmap concat]. fold (@fmap list _ string (list string)).
  rewrite IH by (intros line Hin; apply Hkeep; now apply list_elem_of_further).
  case_bool_decide as Hl; [reflexivity|].
  rewrite (Hkeep l); [reflexivity|apply list_elem_of_here|exact Hl].
Qed.

(** X9: a text whose lines [textwrap.wrap] leaves whole (no line is too
    long, none is blank) is its own wrapping. *)
Theorem wraptext_short_lines text :
  (forall line, line ∈ split LF text -> line <> EmptyString ->
     textwrap_wrap line = [line]) ->
  wraptext text = text.
Proof.
  intros Hkeep. unfold wraptext, wrapped_lines.
  rewrite concat_keep by exact Hkeep. apply concat_split.
Qed.

Lemma concat_app_sep sep (l1 l2 : list string) :
  l1 <> [] -> l2 <> [] ->
  String.concat sep (l1 ++ l2)
  = String.concat sep l1 +:+ sep +:+ String.concat sep l2.
Proof.
  intros H1 H2. induction l1 as [|a l1 IH]; [congruence|].
  destruct l1 as [|b l1].
  - destruct l2 as [|c l2]; [congruence|]. reflexivity.
  - change (String.concat sep ((a :: b :: l1) ++ l2))
      with (a +:+ sep +:+ String.concat sep ((b :: l1) ++ l2)).
    rewrite IH by discriminate.
    change (String.concat sep (a :: b :: l1))
      with (a +:+ sep +:+ String.concat sep (b :: l1)).
    now rewrite !append_assoc.
Qed.

Lemma wrapped_lines_app a b :
  wrapped_lines (a +:+ String LF b) = wrapped_lines a ++ wrapped_lines b.
Proof.
  unfold wrapped_lines. now rewrite split_app, fmap_app, concat_app.
Qed.

(** X10: the lines of a text are wrapped one by one: the wrapping of two
    texts joined by a line feed is the two wrappings joined by a line feed,
    unless one of them wraps to no line at all. *)
Theorem wraptext_app a b :
  wrapped_lines a <> [] -> wrapped_lines b <> [] ->
  wraptext (a +:+ String LF b)
  = wraptext a +:+ String LF (wraptext b).
Proof.
  intros Ha Hb. unfold wraptext.
  rewrite wrapped_lines_app, concat_app_sep by assumption.
  reflexivity.
Qed.

End WrapProperties.

Lemma wraptext_short_lines_witness :
  wraptext (H0 := Samples.keep_lines) STALENOTE = STALENOTE.
Proof.
  apply (wraptext_short_lines (H := Samples.keep_lines)). reflexivity.
Defined.

Lemma wraptext_app_witness :
  wraptext (H0 := Samples.keep_lines) ("Abstract:" +:+ String LF "A sample.")
  = wraptext (H0 := Samples.keep_lines) "Abstract:"
    +:+ String LF (wraptext (H0 := Samples.keep_lines) "A sample.").
Proof.
  apply (wraptext_app (H := Samples.keep_lines)); discriminate.
Defined.

(** ** More on the composers *)

Lemma length_zeros k : String.length (zeros k) = k.
Proof. induction k as [|k IH]; simpl; congruence. Qed.

Lemma length_zfill width s :
  String.length (zfill width s) = Nat.max width (String.length s).
Proof. unfold zfill. rewrite length_append, length_zeros. lia. Qed.

(** X11: a number is printed in four characters or more, the sign counted,
    and two numbers are never printed alike. *)
Theorem format_04d_int_width n :
  (4 <= String.length (format_04d_int n))%nat /\
  (forall m, format_04d_int n = format_04d_int m -> n = m).
Proof.
  split.
  - unfold format_04d_int. destruct (n <? 0); simpl;
      rewrite length_zfill; lia.
  - intros m Heq. apply (f_equal parse_int) in Heq.
    rewrite !parse_int_format_04d in Heq. congruence.
Qed.

Section ComposerEdges.
Context `{XepLib} `{TextWrap} `{HeaderRegistry}.

(** X12: [make_nonproto_mail] starts with the URL, which needs the number
    of the document: with no [number] entry it raises [KeyError], with
    [None] it raises [TypeError], with a string (the name of a ProtoXEP) it
    raises [ValueError], whatever the action and the rest of the record. *)
Theorem make_nonproto_mail_number action info :
  (number info = Missing -> make_nonproto_mail action info = Raise KeyError) /\
  (number info = PyNone -> make_nonproto_mail action info = Raise TypeError) /\
  (forall name,
      number info = Val (ProtoName name) ->
      make_nonproto_mail action info = Raise ValueError).
Proof.
  unfold make_nonproto_mail, nonproto_kwargs.
  split; [|split]; [intros Hn|intros Hn|intros name Hn];
    rewrite Hn; reflexivity.
Qed.



(** The computation that is bound first in [t]. *)
Local Ltac first_bound t :=
  lazymatch t with
  | exc_bind ?m _ => first_bound m
  | _ => t
  end.



(** X14: the subject of a composed mail reads what the header registry made
    of the [value] of the action, the number in four digits and the title,
    or, on a proto mail, of the title after a fixed text; and no two headers
    of the mail have one name. *)
Theorem make_mail_subject action info mail :
  make_mail action info = Ok mail ->
  NoDup (headers mail).*1 /\
  exists t stored,
    getitem (title info) = Ok t /\
    get_header "Subject" mail = Some stored /\
    if bool_decide (action = Action.PROTO) then
      header_store_parse "Subject"
        (Some ("Proposed XMPP Extension: " +:+ py_str t)) = Ok stored
    else
      exists n,
        number info = Val (XepNumber n) /\
        header_store_parse "Subject"
          (Some (action_value action +:+ ": XEP-" +:+ format_04d_int n
                 +:+ " (" +:+ py_str t +:+ ")")) = Ok stored.
Proof.
  unfold make_mail. case_bool_decide as Hproto; intros Hmail.
  - apply make_proto_mail_ok in Hmail
      as (subject & s & text & kwargs & h1 & h2 & h3 & h4 & h5 & h6 & h7
          & _ & Ht & Hkw & Hsub & _ & Hh1 & _ & _ & _ & _ & _ & _ & ->).
    split; [apply (bool_decide_unpack _); vm_compute; exact I|].
    exists (get (title info)), h1.
    split; [now apply getitem_get|]. split; [reflexivity|].
    unfold proto_kwargs in Hkw.
    destruct (getitem (approver info)); [|discriminate].
    destruct (getitem (protoname info)); [|discriminate].
    cbn [exc_bind] in Hkw. injection Hkw as <-.
    cbn [format format_piece SUBJECT_PROTO_TEMPLATE kw_info] in Hsub.
    rewrite (getitem_get _ Ht) in Hsub. cbn [exc_bind] in Hsub.
    injection Hsub as <-. rewrite append_nil_r in Hh1. exact Hh1.
  - apply make_nonproto_mail_ok in Hmail
      as (subject & n & s & text & kwargs & h1 & h2 & h3 & h4 & h5 & h6 & h7
          & Hn & _ & Ht & Hkw & Hsub & _ & Hh1 & _ & _ & _ & _ & _ & _ & ->).
    split; [apply (bool_decide_unpack _); vm_compute; exact I|].
    exists (get (title info)), h1.
    split; [now apply getitem_get|]. split; [reflexivity|].
    exists n. split; [exact Hn|].
    unfold nonproto_kwargs in Hkw. rewrite Hn in Hkw.
    cbn [getitem format_04d exc_bind] in Hkw. injection Hkw as <-.
    cbn [format format_piece SUBJECT_NONPROTO_TEMPLATE kw_info kw_action
         getitem exc_bind] in Hsub.
    rewrite Hn, (getitem_get _ Ht) in Hsub.
    cbn [getitem format_04d exc_bind] in Hsub.
    injection Hsub as <-. rewrite append_nil_r in Hh1. exact Hh1.
Qed.

End ComposerEdges.


Lemma make_mail_subject_witness :
  exists mail,
    make_mail (H := Samples.xeplib) (H0 := Samples.keep_lines)
      (H1 := Registry.registry)
      Action.UPDATE (Samples.xep 45 Status.EXPERIMENTAL "1.2.3") = Ok mail /\
    NoDup (headers mail).*1.
Proof.
  eexists. split.
  - vm_compute. reflexivity.
  - refine (proj1 (make_mail_subject (H := Samples.xeplib)
                     (H0 := Samples.keep_lines) (H1 := Registry.registry)
                     Action.UPDATE
                     (Samples.xep 45 Status.EXPERIMENTAL "1.2.3") _ _)).
    vm_compute. reflexivity.
Defined.

(** ** Properties of the sending loop *)

Section SendingProperties.
Context `{XepLib} `{TextWrap} `{HeaderRegistry} `{Transport}.
Variables (date to : string).

Lemma stamp_ok from mail :
  is_ok (header_store_parse "From" (Some from)) ->
  is_ok (stamp date from to mail).
Proof.
  intros [stored Hstored]. unfold stamp, set_header. rewrite Hstored.
  eexists. reflexivity.
Qed.

Lemma stamp_accepted from mail mail' :
  stamp date from to mail = Ok mail' ->
  is_ok (header_store_parse "From" (Some from)).
Proof.
  unfold stamp, set_header.
  destruct (header_store_parse "From" (Some from)) as [stored|];
    [eexists; reflexivity|discriminate].
Qed.

Lemma stamped_cons_ok from id action info mail mail' rest :
  make_mail action info = Ok mail ->
  stamp date from to mail = Ok mail' ->
  stamped date to from ((id, action, info) :: rest)
  = mail' :: stamped date to from rest.
Proof.
  intros Hmail Hstamp. unfold stamped. simpl. now rewrite Hmail, Hstamp.
Qed.

Lemma stamped_app from pre rest :
  stamped date to from (pre ++ rest)
  = stamped date to from pre ++ stamped date to from rest.
Proof. unfold stamped. apply omap_app. Qed.

Lemma length_stamped from updates :
  Forall composes updates ->
  is_ok (header_store_parse "From" (Some from)) ->
  length (stamped date to from updates) = length updates.
Proof.
  intros Hall Hfrom.
  induction Hall as [|[[id action] info] rest [mail Hmail] _ IH];
    [reflexivity|].
  simpl in Hmail. destruct (stamp_ok from mail Hfrom) as [mail' Hstamp].
  rewrite (stamped_cons_ok _ _ _ _ _ _ _ Hmail Hstamp). simpl.
  now rewrite IH.
Qed.

(** The loop is left with nothing more sent. *)
Local Ltac nothing_sent :=
  split; [reflexivity|]; split; [reflexivity|];
  split;
  [ intros code Hc;
    first [discriminate Hc | (injection Hc as <-; split; reflexivity)] |];
  exists []; rewrite app_nil_r; split; [reflexivity|];
  split; [apply sublist_nil_l|]; intros _; simpl; lia.

(** What the loop does to the connection. *)
Lemma send_loop_sent from ask updates answers conn ending conn' :
  send_loop date to from ask updates answers conn = (ending, conn') ->
  fake conn' = fake conn /\
  closed conn' = closed conn /\
  (forall code, ending = SysExit code -> code = 4 /\ ask = true) /\
  exists k,
    sent conn' = sent conn ++ k /\
    k `sublist_of` match from with
                   | Some from => stamped date to from updates
                   | None => []
                   end /\
    (ask = true -> (length k <= length (filter (fun c => c = Yes) answers))%nat).
Proof.
  revert answers conn.
  induction updates as [|[[id action] info] rest IH]; intros answers conn.
  - simpl. intros [= <- <-]. nothing_sent.
  - cbn [send_loop]. destruct (make_mail action info) as [mail|e] eqn:Hmail.
    2:{ intros [= <- <-]. nothing_sent. }
    destruct from as [from|].
    2:{ intros [= <- <-]. nothing_sent. }
    destruct (stamp date from to mail) as [mail'|e] eqn:Hstamp.
    2:{ intros [= <- <-]. nothing_sent. }
    rewrite (stamped_cons_ok _ _ _ _ _ _ _ Hmail Hstamp).
    destruct ask.
    + destruct answers as [|[| |] answers]; cbn [choose].
      * intros [= <- <-]. nothing_sent.
      * unfold send_message. destruct (delivers conn mail').
        2:{ intros [= <- <-]. nothing_sent. }
        intros Hloop.
        destruct (IH _ _ Hloop) as (Hf & Hc & Hcode & k & Hk & Hsub & Hlen).
        split; [exact Hf|]. split; [exact Hc|]. split; [exact Hcode|].
        exists (mail' :: k). cbn [sent] in Hk.
        rewrite <- app_assoc in Hk. split; [exact Hk|].
        split; [now apply sublist_skip|].
        intros Hask. specialize (Hlen Hask).
        rewrite filter_cons_True by reflexivity. simpl. lia.
      * intros Hloop.
        destruct (IH _ _ Hloop) as (Hf & Hc & Hcode & k & Hk & Hsub & Hlen).
        split; [exact Hf|]. split; [exact Hc|]. split; [exact Hcode|].
        exists k. split; [exact Hk|]. split; [now apply sublist_cons|].
        intros Hask. specialize (Hlen Hask).
        rewrite filter_cons_False by discriminate. exact Hlen.
      * intros [= <- <-]. nothing_sent.
    + unfold send_message. destruct (delivers conn mail').
      2:{ intros [= <- <-]. nothing_sent. }
      intros Hloop.
      destruct (IH _ _ Hloop) as (Hf & Hc & Hcode & k & Hk & Hsub & Hlen).
      split; [exact Hf|]. split; [exact Hc|]. split; [exact Hcode|].
      exists (mail' :: k). cbn [sent] in Hk.
      rewrite <- app_assoc in Hk. split; [exact Hk|].
      split; [now apply sublist_skip|]. discriminate.
Qed.

(** X15: whatever the answers, and whether or not a header assignment or
    [send_message] raises, the mails that [send_message] has taken are mails
    of the queue, each of them at most once and in the order of the queue,
    and in confirmation mode there are no more of them than answers [y]; the
    connection is closed when the loop is left, however it is left; and the
    only exit code of the loop is 4, in confirmation mode. *)
Theorem send_updates_sent from ask updates answers conn ending conn' :
  send_updates date to from ask updates answers conn = (ending, conn') ->
  closed conn' = true /\
  fake conn' = fake conn /\
  (forall code, ending = SysExit code -> code = 4 /\ ask = true) /\
  exists k,
    sent conn' = sent conn ++ k /\
    k `sublist_of` match from with
                   | Some from => stamped date to from updates
                   | None => []
                   end /\
    (ask = true -> (length k <= length (filter (fun c => c = Yes) answers))%nat).
Proof.
  unfold send_updates.
  destruct (send_loop date to from ask updates answers conn) as [e c] eqn:Hloop.
  intros [= <- <-].
  destruct (send_loop_sent _ _ _ _ _ _ _ Hloop) as (Hf & _ & Hcode & Hk).
  split; [reflexivity|]. split; [exact Hf|]. split; [exact Hcode|exact Hk].
Qed.

(** Without confirmation, the mails of a prefix that composes and that the
    server takes are sent before the rest of the queue is looked at. *)
Lemma send_loop_prefix from pre rest answers conn :
  Forall composes pre ->
  is_ok (header_store_parse "From" (Some from)) ->
  (forall conn mail,
      mail ∈ stamped date to from pre -> delivers conn mail = true) ->
  send_loop date to (Some from) false (pre ++ rest) answers conn
  = send_loop date to (Some from) false rest answers
      {| fake := fake conn;
         sent := sent conn ++ stamped date to from pre;
         closed := closed conn |}.
Proof.
  intros Hpre Hfrom. revert conn.
  induction Hpre as [|[[id action] info] pre [mail Hmail] _ IH];
    intros conn Htaken.
  - simpl. rewrite app_nil_r. now destruct conn.
  - simpl in Hmail. destruct (stamp_ok from mail Hfrom) as [mail' Hstamp].
    assert (forall conn0, delivers conn0 mail' = true) as Hhead
      by (intros conn0; apply Htaken;
          rewrite (stamped_cons_ok _ _ _ _ _ _ _ Hmail Hstamp);
          apply list_elem_of_here).
    assert (forall conn0 mail0,
               mail0 ∈ stamped date to from pre ->
               delivers conn0 mail0 = true) as Htail
      by (intros conn0 mail0 Hin; apply Htaken;
          rewrite (stamped_cons_ok _ _ _ _ _ _ _ Hmail Hstamp);
          now apply list_elem_of_further).
    rewrite (stamped_cons_ok _ _ _ _ _ _ _ Hmail Hstamp).
    rewrite <- app_comm_cons. cbn [send_loop]. rewrite Hmail, Hstamp.
    unfold send_message. rewrite Hhead.
    rewrite IH by exact Htail.
    cbn [fake sent closed]. now rewrite <- app_assoc.
Qed.

(** X16: without confirmation and with a sender address that the header
    registry accepts, a queue whose mails all compose and are all taken by
    the server is sent whole, in its order, one mail for each update. *)
Theorem send_updates_all from updates answers conn :
  Forall composes updates ->
  is_ok (header_store_parse "From" (Some from)) ->
  (forall conn mail,
      mail ∈ stamped date to from updates -> delivers conn mail = true) ->
  send_updates date to (Some from) false updates answers conn
  = (Finished,
     {| fake := fake conn;
        sent := sent conn ++ stamped date to from updates;
        closed := true |}) /\
  length (stamped date to from updates) = length updates.
Proof.
  intros Hall Hfrom Htaken. split; [|now apply length_stamped].
  unfold send_updates.
  rewrite <- (app_nil_r updates) at 1.
  now rewrite send_loop_prefix.
Qed.

(** X17: a mail is composed when its turn comes: when composing raises in
    the middle of the queue, the mails before it, which the server took, are
    sent already, the mails after it are not, and the connection is
    closed. *)
Theorem send_updates_failure from pre id action info post e answers conn :
  Forall composes pre ->
  is_ok (header_store_parse "From" (Some from)) ->
  (forall conn mail,
      mail ∈ stamped date to from pre -> delivers conn mail = true) ->
  make_mail action info = Raise e ->
  send_updates date to (Some from) false
    (pre ++ (id, action, info) :: post) answers conn
  = (Raised e,
     {| fake := fake conn;
        sent := sent conn ++ stamped date to from pre;
        closed := true |}).
Proof.
  intros Hpre Hfrom Htaken Hbad. unfold send_updates.
  rewrite send_loop_prefix by assumption. simpl. now rewrite Hbad.
Qed.

(** X24: when [send_message] raises in the middle of the queue, the mails
    before that one, which the server took, are sent, that mail and the
    mails after it are not, the run ends with the exception, and the
    connection is closed all the same. *)
Theorem send_updates_transport_error
    from pre id action info mail mail' post answers conn :
  Forall composes pre ->
  (forall conn mail,
      mail ∈ stamped date to from pre -> delivers conn mail = true) ->
  make_mail action info = Ok mail ->
  stamp date from to mail = Ok mail' ->
  delivers {| fake := fake conn;
              sent := sent conn ++ stamped date to from pre;
              closed := closed conn |} mail' = false ->
  send_updates date to (Some from) false
    (pre ++ (id, action, info) :: post) answers conn
  = (RaisedSmtp,
     {| fake := fake conn;
        sent := sent conn ++ stamped date to from pre;
        closed := true |}).
Proof.
  intros Hpre Htaken Hmail Hstamp Hrefused. unfold send_updates.
  rewrite send_loop_prefix;
    [|assumption|now apply stamp_accepted in Hstamp|assumption].
  cbn [send_loop]. rewrite Hmail, Hstamp. unfold send_message.
  now rewrite Hrefused.
Qed.

Lemma confirmed_cons from id action info mail mail' pre c choices :
  make_mail action info = Ok mail ->
  stamp date from to mail = Ok mail' ->
  confirmed date to from ((id, action, info) :: pre) (c :: choices)
  = (if bool_decide (c = Yes) then [mail'] else [])
    ++ confirmed date to from pre choices.
Proof.
  intros Hmail Hstamp. unfold confirmed.
  rewrite (stamped_cons_ok _ _ _ _ _ _ _ Hmail Hstamp).
  cbn [zip zip_with]. case_bool_decide as Hc.
  - now rewrite filter_cons_True by exact Hc.
  - now rewrite filter_cons_False by exact Hc.
Qed.

Lemma send_loop_confirm from pre rest choices tail conn :
  Forall composes pre ->
  is_ok (header_store_parse "From" (Some from)) ->
  (forall conn mail,
      mail ∈ stamped date to from pre -> delivers conn mail = true) ->
  length choices = length pre ->
  Abort ∉ choices ->
  send_loop date to (Some from) true (pre ++ rest) (choices ++ tail) conn
  = send_loop date to (Some from) true rest tail
      {| fake := fake conn;
         sent := sent conn ++ confirmed date to from pre choices;
         closed := closed conn |}.
Proof.
  intros Hpre Hfrom. revert choices conn.
  induction Hpre as [|[[id action] info] pre [mail Hmail] _ IH];
    intros choices conn Htaken Hlen Habort.
  - destruct choices; [|discriminate]. unfold confirmed. simpl.
    rewrite app_nil_r. now destruct conn.
  - destruct choices as [|c choices]; [discriminate|].
    simpl in Hmail, Hlen. injection Hlen as Hlen.
    apply not_elem_of_cons in Habort as [Hc Habort].
    destruct (stamp_ok from mail Hfrom) as [mail' Hstamp].
    assert (forall conn0, delivers conn0 mail' = true) as Hhead
      by (intros conn0; apply Htaken;
          rewrite (stamped_cons_ok _ _ _ _ _ _ _ Hmail Hstamp);
          apply list_elem_of_here).
    assert (forall conn0 mail0,
               mail0 ∈ stamped date to from pre ->
               delivers conn0 mail0 = true) as Htail
      by (intros conn0 mail0 Hin; apply Htaken;
          rewrite (stamped_cons_ok _ _ _ _ _ _ _ Hmail Hstamp);
          now apply list_elem_of_further).
    rewrite (confirmed_cons _ _ _ _ _ _ _ _ _ Hmail Hstamp).
    rewrite <- !app_comm_cons. cbn [send_loop choose].
    rewrite Hmail, Hstamp.
    destruct c; [| |congruence].
    + unfold send_message. rewrite Hhead.
      rewrite IH by assumption. cbn [fake sent closed].
      rewrite bool_decide_eq_true_2 by reflexivity.
      now rewrite <- app_assoc.
    + rewrite IH by assumption.
      rewrite bool_decide_eq_false_2 by discriminate. reflexivity.
Qed.

(** X18: in confirmation mode an answer [a], or the end of the input, ends
    the run with exit code 4 at once: the mails answered [y] before it,
    which the server took, are sent, the mail in question and the rest of
    the queue are not, and the connection is closed. *)
Theorem send_updates_abort
    from pre id action info post choices tail conn :
  Forall composes pre ->
  composes (id, action, info) ->
  is_ok (header_store_parse "From" (Some from)) ->
  (forall conn mail,
      mail ∈ stamped date to from pre -> delivers conn mail = true) ->
  length choices = length pre ->
  Abort ∉ choices ->
  tail = [] \/ (exists more, tail = Abort :: more) ->
  send_updates date to (Some from) true
    (pre ++ (id, action, info) :: post) (choices ++ tail) conn
  = (SysExit 4,
     {| fake := fake conn;
        sent := sent conn ++ confirmed date to from pre choices;
        closed := true |}).
Proof.
  intros Hpre [mail Hmail] Hfrom Htaken Hlen Habort Htail.
  unfold send_updates.
  rewrite send_loop_confirm by assumption.
  destruct (stamp_ok from mail Hfrom) as [mail' Hstamp].
  simpl in Hmail. cbn [send_loop]. rewrite Hmail, Hstamp.
  destruct Htail as [->|[more ->]]; reflexivity.
Qed.

End SendingProperties.

(** ** Properties of a run *)

Section RunProperties.
Context `{XepLib} `{TextWrap} `{HeaderRegistry} `{Transport}.
Variables (date to : string).
Context {Config : Type}.
Variable interactively_extend_smtp_config : Config -> Config.
Variable make_smtpconn : Config -> Connect.
Variable config_from : Config -> option string.
Variables (old_accepted new_accepted : gmap Z Info).
Variables (old_proto new_proto : gmap string Info).

(** What a run does once it is past the check of the terminal. *)
Lemma main_send_connection r interactive config answers ending conn :
  (main_send date to interactively_extend_smtp_config make_smtpconn
     config_from r interactive config
     old_accepted new_accepted old_proto new_proto answers) = (ending, conn) ->
  ending <> SysExit 2 /\
  match conn with
  | None =>
      (exists e, (main_updates (run_args r)
     old_accepted new_accepted old_proto new_proto) = Raise e /\ ending = Raised e) \/
      (is_ok (main_updates (run_args r)
     old_accepted new_accepted old_proto new_proto) /\ dry_run r = false /\ ending = SysExit 3 /\
       make_smtpconn (if dry_run r then config
    else if interactive then interactively_extend_smtp_config config
         else config) = NotConfigured) \/
      (is_ok (main_updates (run_args r)
     old_accepted new_accepted old_proto new_proto) /\ dry_run r = false /\ ending = RaisedSmtp /\
       make_smtpconn (if dry_run r then config
    else if interactive then interactively_extend_smtp_config config
         else config) = ConnectFailed)
  | Some conn =>
      closed conn = true /\
      fake conn = dry_run r /\
      (dry_run r = false ->
       make_smtpconn (if dry_run r then config
    else if interactive then interactively_extend_smtp_config config
         else config) = Connected) /\
      exists updates,
        (main_updates (run_args r)
     old_accepted new_accepted old_proto new_proto) = Ok updates /\
        sent conn
          `sublist_of` match config_from (if dry_run r then config
    else if interactive then interactively_extend_smtp_config config
         else config) with
                       | Some from => stamped date to from updates
                       | None => []
                       end
  end.
Proof.
  unfold main_send.
  destruct (main_updates (run_args r)
     old_accepted new_accepted old_proto new_proto) as [updates|e].
  2:{ intros [= <- <-]. split; [discriminate|]. left. eauto. }
  destruct (dry_run r).
  - unfold send_updates.
    destruct (send_loop _ _ _ _ _ _ _) as [e c] eqn:Hloop.
    intros [= <- <-].
    apply send_loop_sent in Hloop
      as (Hfake & _ & Hcode & k & Hk & Hsub & _).
    split; [intros ->; now destruct (Hcode 2 eq_refl)|].
    split; [reflexivity|]. split; [exact Hfake|]. split; [discriminate|].
    exists updates. split; [reflexivity|].
    cbn [close sent]. now rewrite Hk.
  - destruct (make_smtpconn _) eqn:Hconn.
    + unfold send_updates.
      destruct (send_loop _ _ _ _ _ _ _) as [e c] eqn:Hloop.
      intros [= <- <-].
      apply send_loop_sent in Hloop
        as (Hfake & _ & Hcode & k & Hk & Hsub & _).
      split; [intros ->; now destruct (Hcode 2 eq_refl)|].
      split; [reflexivity|]. split; [exact Hfake|]. split; [reflexivity|].
      exists updates. split; [reflexivity|].
      cbn [close sent]. now rewrite Hk.
    + intros [= <- <-]. split; [discriminate|]. right. left.
      split; [now eexists|]. auto.
    + intros [= <- <-]. split; [discriminate|]. right. right.
      split; [now eexists|]. auto.
Qed.

(** X19: a run ends with exit code 2 exactly when confirmation is asked for
    (no [-y], no dry run) and the standard streams are no terminal; nothing
    is classified and no connection is made then. *)
Theorem main_run_exit_2 r interactive config answers :
  ((main_run date to interactively_extend_smtp_config make_smtpconn
     config_from r interactive config
     old_accepted new_accepted old_proto new_proto answers).1 = SysExit 2
   <-> ask_confirmation r = true /\ dry_run r = false /\ interactive = false) /\
  ((main_run date to interactively_extend_smtp_config make_smtpconn
     config_from r interactive config
     old_accepted new_accepted old_proto new_proto answers).1 = SysExit 2 ->
   (main_run date to interactively_extend_smtp_config make_smtpconn
     config_from r interactive config
     old_accepted new_accepted old_proto new_proto answers).2 = None).
Proof.
  unfold main_run.
  destruct ((if dry_run r then false else ask_confirmation r)
            && negb interactive) eqn:Hexit.
  - split; [|reflexivity]. split; [intros _|reflexivity].
    destruct (dry_run r), (ask_confirmation r), interactive;
      simpl in Hexit; try discriminate; auto.
  - destruct (main_send date to interactively_extend_smtp_config make_smtpconn
     config_from r interactive config
     old_accepted new_accepted old_proto new_proto answers) as [ending conn] eqn:Hsend.
    apply main_send_connection in Hsend as [Hne _]. simpl.
    split; [split|]; [tauto| |tauto].
    intros (Ha & Hd & Hi). rewrite Ha, Hd, Hi in Hexit. discriminate.
Qed.

(** X20: a connection that was made is closed when the run ends, however it
    ends, with an exception of [send_message] or of a header assignment as
    well; it is the fake one exactly on a dry run; it is made only once the
    classifier has returned the queue; and what it has taken are mails of
    that queue, in its order. *)
Theorem main_run_connection r interactive config answers ending conn :
  (main_run date to interactively_extend_smtp_config make_smtpconn
     config_from r interactive config
     old_accepted new_accepted old_proto new_proto answers) = (ending, Some conn) ->
  closed conn = true /\
  fake conn = dry_run r /\
  (dry_run r = false ->
   make_smtpconn (if dry_run r then config
    else if interactive then interactively_extend_smtp_config config
         else config) = Connected) /\
  exists updates,
    (main_updates (run_args r)
     old_accepted new_accepted old_proto new_proto) = Ok updates /\
    sent conn
      `sublist_of` match config_from (if dry_run r then config
    else if interactive then interactively_extend_smtp_config config
         else config) with
                   | Some from => stamped date to from updates
                   | None => []
                   end.
Proof.
  unfold main_run. destruct (_ && _); [discriminate|].
  intros Hsend. now apply main_send_connection in Hsend as [_ Hconn].
Qed.

(** X21: a run that ends with no connection ended at the check of the
    terminal (exit code 2), with an exception of the classifier, with exit
    code 3 because [make_smtpconn] raised [NoSectionError] or
    [NoOptionError], or with another exception of [make_smtpconn], which
    [main] does not catch; and when the classifier raises, no connection is
    made: no mail of a queue that could not be completed is sent. *)
Theorem main_run_no_connection r interactive config answers :
  (forall ending,
      (main_run date to interactively_extend_smtp_config make_smtpconn
     config_from r interactive config
     old_accepted new_accepted old_proto new_proto answers) = (ending, None) ->
      (ending = SysExit 2 /\ ask_confirmation r = true /\
       dry_run r = false /\ interactive = false) \/
      (exists e, (main_updates (run_args r)
     old_accepted new_accepted old_proto new_proto) = Raise e /\ ending = Raised e) \/
      (is_ok (main_updates (run_args r)
     old_accepted new_accepted old_proto new_proto) /\ dry_run r = false /\ ending = SysExit 3 /\
       make_smtpconn (if dry_run r then config
    else if interactive then interactively_extend_smtp_config config
         else config) = NotConfigured) \/
      (is_ok (main_updates (run_args r)
     old_accepted new_accepted old_proto new_proto) /\ dry_run r = false /\ ending = RaisedSmtp /\
       make_smtpconn (if dry_run r then config
    else if interactive then interactively_extend_smtp_config config
         else config) = ConnectFailed)) /\
  (forall e,
      (main_updates (run_args r)
     old_accepted new_accepted old_proto new_proto) = Raise e ->
      (main_run date to interactively_extend_smtp_config make_smtpconn
     config_from r interactive config
     old_accepted new_accepted old_proto new_proto answers).2 = None).
Proof.
  unfold main_run. split.
  - intros ending.
    destruct ((if dry_run r then false else ask_confirmation r)
              && negb interactive) eqn:Hexit.
    + intros [= <-]. left.
      destruct (dry_run r), (ask_confirmation r), interactive;
        simpl in Hexit; try discriminate; auto.
    + intros Hsend.
      apply main_send_connection in Hsend as [_ Hconn]. now right.
  - intros e He. destruct (_ && _); [reflexivity|].
    unfold main_send. now rewrite He.
Qed.

Lemma send_loop_no_ask from updates answers answers' conn :
  send_loop date to from false updates answers conn
  = send_loop date to from false updates answers' conn.
Proof.
  revert conn. induction updates as [|[[id action] info] rest IH];
    intros conn; [reflexivity|].
  cbn [send_loop]. destruct (make_mail action info) as [mail|]; [|reflexivity].
  destruct from as [from'|]; [|reflexivity].
  destruct (stamp date from' to mail) as [mail'|]; [|reflexivity].
  destruct (send_message mail' conn); [apply IH|reflexivity].
Qed.

(** X22: a dry run asks no question and leaves the SMTP configuration
    alone: it is the same run whatever [-y] says, whether or not there is a
    terminal, whatever would be answered, and whatever
    [interactively_extend_smtp_config] and [make_smtpconn] would do. *)
Theorem main_run_dry r r' interactive interactive' config answers answers'
    (extend' : Config -> Config) (make_smtpconn' : Config -> Connect) :
  dry_run r = true -> dry_run r' = true -> run_args r = run_args r' ->
  (main_run date to interactively_extend_smtp_config make_smtpconn
     config_from r interactive config
     old_accepted new_accepted old_proto new_proto answers)
  = main_run date to extend' make_smtpconn' config_from r' interactive' config
      old_accepted new_accepted old_proto new_proto answers'.
Proof.
  intros Hd Hd' Hargs. unfold main_run, main_send.
  rewrite Hd, Hd', Hargs. simpl.
  destruct (main_updates (run_args r')
     old_accepted new_accepted old_proto new_proto) as [updates|e]; [|reflexivity].
  unfold send_updates.
  now rewrite (send_loop_no_ask _ updates answers answers').
Qed.

(** X23: the sender address is read for each mail, after it is composed,
    and a dry run reads it from the configuration as it was given: with no
    [from] option there, a dry run of an empty queue finishes, and a dry run
    of any other queue ends at its first mail, with the error of the
    composer or with the one of the missing option, nothing printed. *)
Theorem main_run_dry_no_from r interactive config answers updates :
  dry_run r = true ->
  config_from config = None ->
  (main_updates (run_args r)
     old_accepted new_accepted old_proto new_proto) = Ok updates ->
  (main_run date to interactively_extend_smtp_config make_smtpconn
     config_from r interactive config
     old_accepted new_accepted old_proto new_proto answers)
  = (match updates with
     | [] => Finished
     | (_, action, info) :: _ =>
         match make_mail action info with
         | Ok _ => RaisedConfig
         | Raise e => Raised e
         end
     end,
     Some {| fake := true; sent := []; closed := true |}).
Proof.
  intros Hd Hfrom Hqueue. unfold main_run, main_send.
  rewrite Hd, Hfrom, Hqueue. simpl.
  unfold send_updates.
  destruct updates as [|[[id action] info] rest]; [reflexivity|].
  cbn [send_loop]. now destruct (make_mail action info).
Qed.

End RunProperties.

Lemma composes_update_45 :
  composes (H := Samples.xeplib) (H0 := Samples.keep_lines)
    (H1 := Registry.registry) Runs.update_45.
Proof. eexists. vm_compute. reflexivity. Defined.

Lemma composes_defer_46 :
  composes (H := Samples.xeplib) (H0 := Samples.keep_lines)
    (H1 := Registry.registry) Runs.defer_46.
Proof. eexists. vm_compute. reflexivity. Defined.

Lemma sender_accepted :
  is_ok (header_store_parse (HeaderRegistry := Registry.registry)
           "From" (Some Runs.sender)).
Proof. eexists. vm_compute. reflexivity. Defined.

Lemma server_delivers (l : list EmailMessage) :
  forall conn mail, mail ∈ l -> delivers (Transport := Runs.server) conn mail = true.
Proof. reflexivity. Defined.

Lemma send_updates_sent_witness :
  exists ending conn,
    send_updates (H := Samples.xeplib) (H0 := Samples.keep_lines)
      (H1 := Registry.registry) (H2 := Runs.single)
      Runs.date Runs.recipient (Some Runs.sender) false
      [Runs.update_45; Runs.defer_46] [] Runs.fresh
    = (ending, conn) /\
    closed conn = true.
Proof.
  do 2 eexists. split.
  - vm_compute. reflexivity.
  - refine (proj1 (send_updates_sent (H := Samples.xeplib)
                     (H0 := Samples.keep_lines)
                     (H1 := Registry.registry) (H2 := Runs.single)
                     Runs.date Runs.recipient (Some Runs.sender) false
                     [Runs.update_45; Runs.defer_46] [] Runs.fresh
                     _ _ _)).
    vm_compute. reflexivity.
Defined.

Lemma send_updates_all_witness :
  length (stamped (H := Samples.xeplib) (H0 := Samples.keep_lines)
            (H1 := Registry.registry)
            Runs.date Runs.recipient Runs.sender
            [Runs.update_45; Runs.defer_46])
  = 2%nat.
Proof.
  refine (proj2 (send_updates_all (H := Samples.xeplib)
                   (H0 := Samples.keep_lines)
                   (H1 := Registry.registry) (H2 := Runs.server)
                   Runs.date Runs.recipient Runs.sender
                   [Runs.update_45; Runs.defer_46] [] Runs.fresh _ _ _)).
  - repeat constructor; [apply composes_update_45|apply composes_defer_46].
  - apply sender_accepted.
  - apply server_delivers.
Defined.

Lemma send_updates_failure_witness :
  send_updates (H := Samples.xeplib) (H0 := Samples.keep_lines)
    (H1 := Registry.registry) (H2 := Runs.server)
    Runs.date Runs.recipient (Some Runs.sender) false
    ([Runs.update_45] ++ Runs.new_47 :: [Runs.defer_46]) [] Runs.fresh
  = (Raised KeyError,
     {| fake := false;
        sent := [] ++ stamped (H := Samples.xeplib) (H0 := Samples.keep_lines)
                        (H1 := Registry.registry)
                        Runs.date Runs.recipient Runs.sender [Runs.update_45];
        closed := true |}).
Proof.
  apply (send_updates_failure (H := Samples.xeplib) (H0 := Samples.keep_lines)
           (H1 := Registry.registry) (H2 := Runs.server)
           Runs.date Runs.recipient Runs.sender [Runs.update_45]
           (XepNumber 47) Action.NEW
           (Samples.xep_unversioned 47 Status.EXPERIMENTAL)
           [Runs.defer_46] KeyError [] Runs.fresh).
  - repeat constructor. apply composes_update_45.
  - apply sender_accepted.
  - apply server_delivers.
  - vm_compute. reflexivity.
Defined.

Lemma selective_delivers :
  forall conn mail,
    mail ∈ stamped (H := Samples.xeplib) (H0 := Samples.keep_lines)
             (H1 := Registry.registry)
             Runs.date Runs.recipient Runs.sender [Runs.update_45] ->
    delivers (Transport := Runs.selective) conn mail = true.
Proof.
  intros conn mail Hin. apply list_elem_of_singleton in Hin. subst mail.
  vm_compute. reflexivity.
Defined.

Lemma send_updates_transport_error_witness :
  exists mail mail',
    make_mail (H := Samples.xeplib) (H0 := Samples.keep_lines)
      (H1 := Registry.registry) Action.DEFER
      (Samples.xep 46 Status.DEFERRED "0.3") = Ok mail /\
    stamp (H := Registry.registry)
      Runs.date Runs.sender Runs.recipient mail = Ok mail' /\
    send_updates (H := Samples.xeplib) (H0 := Samples.keep_lines)
      (H1 := Registry.registry) (H2 := Runs.selective)
      Runs.date Runs.recipient (Some Runs.sender) false
      ([Runs.update_45] ++ Runs.defer_46 :: [Runs.new_47]) [] Runs.fresh
    = (RaisedSmtp,
       {| fake := false;
          sent := [] ++ stamped (H := Samples.xeplib)
                          (H0 := Samples.keep_lines)
                          (H1 := Registry.registry)
                          Runs.date Runs.recipient Runs.sender
                          [Runs.update_45];
          closed := true |}).
Proof.
  do 2 eexists. split; [vm_compute; reflexivity|].
  split; [vm_compute; reflexivity|].
  eapply (send_updates_transport_error (H := Samples.xeplib)
            (H0 := Samples.keep_lines)
            (H1 := Registry.registry) (H2 := Runs.selective)
            Runs.date Runs.recipient Runs.sender [Runs.update_45]
            (XepNumber 46) Action.DEFER
            (Samples.xep 46 Status.DEFERRED "0.3")).
  - repeat constructor. apply composes_update_45.
  - apply selective_delivers.
  - vm_compute. reflexivity.
  - vm_compute. reflexivity.
  - vm_compute. reflexivity.
Defined.

Lemma send_updates_abort_witness :
  send_updates (H := Samples.xeplib) (H0 := Samples.keep_lines)
    (H1 := Registry.registry) (H2 := Runs.server)
    Runs.date Runs.recipient (Some Runs.sender) true
    ([Runs.update_45] ++ Runs.defer_46 :: [Runs.new_47]) ([Yes] ++ []) Runs.fresh
  = (SysExit 4,
     {| fake := false;
        sent := [] ++ confirmed (H := Samples.xeplib) (H0 := Samples.keep_lines)
                        (H1 := Registry.registry)
                        Runs.date Runs.recipient Runs.sender
                        [Runs.update_45] [Yes];
        closed := true |}).
Proof.
  apply (send_updates_abort (H := Samples.xeplib) (H0 := Samples.keep_lines)
           (H1 := Registry.registry) (H2 := Runs.server)
           Runs.date Runs.recipient Runs.sender [Runs.update_45]
           (XepNumber 46) Action.DEFER (Samples.xep 46 Status.DEFERRED "0.3")
           [Runs.new_47] [Yes] [] Runs.fresh).
  - repeat constructor. apply composes_update_45.
  - apply composes_defer_46.
  - apply sender_accepted.
  - apply server_delivers.
  - reflexivity.
  - intros Hin. apply list_elem_of_singleton in Hin. discriminate.
  - now left.
Defined.

Lemma main_run_exit_2_witness :
  (main_run (H := Samples.xeplib) (H0 := Samples.keep_lines)
     (H1 := Registry.registry) (H2 := Runs.server)
     Runs.date Runs.recipient Runs.extend Runs.connect id
     Runs.ask false (Some Runs.sender)
     {[ 45 := Samples.xep 45 Status.EXPERIMENTAL "1.0" ]}
     {[ 45 := Samples.xep 45 Status.EXPERIMENTAL "1.1" ]} ∅ ∅ [Yes]).1
  = SysExit 2.
Proof.
  apply (proj1 (main_run_exit_2 (H := Samples.xeplib)
                  (H0 := Samples.keep_lines)
                  (H1 := Registry.registry) (H2 := Runs.server)
                  Runs.date Runs.recipient Runs.extend Runs.connect id
                  {[ 45 := Samples.xep 45 Status.EXPERIMENTAL "1.0" ]}
                  {[ 45 := Samples.xep 45 Status.EXPERIMENTAL "1.1" ]} ∅ ∅
                  Runs.ask false (Some Runs.sender) [Yes])).
  repeat split.
Defined.

Lemma main_run_connection_witness :
  exists ending conn,
    main_run (H := Samples.xeplib) (H0 := Samples.keep_lines)
      (H1 := Registry.registry) (H2 := Runs.selective)
      Runs.date Runs.recipient Runs.extend Runs.connect id
      Runs.yes false (Some Runs.sender)
      {[ 46 := Samples.xep 46 Status.EXPERIMENTAL "0.3" ]}
      {[ 46 := Samples.xep 46 Status.DEFERRED "0.3" ]} ∅ ∅ []
    = (ending, Some conn) /\
    closed conn = true.
Proof.
  do 2 eexists. split.
  - vm_compute. reflexivity.
  - refine (proj1 (main_run_connection (H := Samples.xeplib)
                     (H0 := Samples.keep_lines)
                     (H1 := Registry.registry) (H2 := Runs.selective)
                     Runs.date Runs.recipient Runs.extend Runs.connect id
                     {[ 46 := Samples.xep 46 Status.EXPERIMENTAL "0.3" ]}
                     {[ 46 := Samples.xep 46 Status.DEFERRED "0.3" ]} ∅ ∅
                     Runs.yes false (Some Runs.sender) [] _ _ _)).
    vm_compute. reflexivity.
Defined.

Lemma main_run_no_connection_witness :
  (main_run (H := Samples.xeplib) (H0 := Samples.keep_lines)
     (H1 := Registry.registry) (H2 := Runs.server)
     Runs.date Runs.recipient Runs.extend Runs.connect id
     Runs.yes false (Some Runs.sender)
     {[ 45 := Samples.xep 45 Status.EXPERIMENTAL "1.0" ]}
     {[ 45 := Samples.xep_unversioned 45 Status.EXPERIMENTAL ]} ∅ ∅ []).2
  = None.
Proof.
  apply (proj2 (main_run_no_connection (H := Samples.xeplib)
                  (H0 := Samples.keep_lines)
                  (H1 := Registry.registry) (H2 := Runs.server)
                  Runs.date Runs.recipient Runs.extend Runs.connect id
                  {[ 45 := Samples.xep 45 Status.EXPERIMENTAL "1.0" ]}
                  {[ 45 := Samples.xep_unversioned 45 Status.EXPERIMENTAL ]}
                  ∅ ∅ Runs.yes false (Some Runs.sender) [])
           AttributeError).
  reflexivity.
Defined.

Lemma main_run_dry_witness :
  main_run (H := Samples.xeplib) (H0 := Samples.keep_lines)
    (H1 := Registry.registry) (H2 := Runs.server)
    Runs.date Runs.recipient Runs.extend Runs.connect id
    Runs.dry false (Some Runs.sender)
    {[ 45 := Samples.xep 45 Status.EXPERIMENTAL "1.0" ]}
    {[ 45 := Samples.xep 45 Status.EXPERIMENTAL "1.1" ]} ∅ ∅ []
  = main_run (H := Samples.xeplib) (H0 := Samples.keep_lines)
      (H1 := Registry.registry) (H2 := Runs.server)
      Runs.date Runs.recipient id (fun _ => ConnectFailed) id
      {| run_args := Samples.all_args; ask_confirmation := false;
         dry_run := true |}
      true (Some Runs.sender)
      {[ 45 := Samples.xep 45 Status.EXPERIMENTAL "1.0" ]}
      {[ 45 := Samples.xep 45 Status.EXPERIMENTAL "1.1" ]} ∅ ∅ [No].
Proof.
  apply (main_run_dry (H := Samples.xeplib) (H0 := Samples.keep_lines)
           (H1 := Registry.registry) (H2 := Runs.server));
    reflexivity.
Defined.

Lemma main_run_dry_no_from_witness :
  main_run (H := Samples.xeplib) (H0 := Samples.keep_lines)
    (H1 := Registry.registry) (H2 := Runs.server)
    Runs.date Runs.recipient Runs.extend Runs.connect id
    Runs.dry true None
    {[ 45 := Samples.xep 45 Status.EXPERIMENTAL "1.0" ]}
    {[ 45 := Samples.xep 45 Status.EXPERIMENTAL "1.1" ]} ∅ ∅ []
  = (RaisedConfig, Some {| fake := true; sent := []; closed := true |}).
Proof.
  apply (main_run_dry_no_from (H := Samples.xeplib) (H0 := Samples.keep_lines)
           (H1 := Registry.registry) (H2 := Runs.server)
           Runs.date Runs.recipient Runs.extend Runs.connect id
           {[ 45 := Samples.xep 45 Status.EXPERIMENTAL "1.0" ]}
           {[ 45 := Samples.xep 45 Status.EXPERIMENTAL "1.1" ]} ∅ ∅
           Runs.dry true None []
           [(XepNumber 45, Action.UPDATE,
             Samples.xep 45 Status.EXPERIMENTAL "1.1")]);
    reflexivity.
Defined.

Lemma format_04d_int_width_witness :
  (4 <= String.length (format_04d_int 45))%nat.
Proof. exact (proj1 (format_04d_int_width 45)). Defined.

Lemma make_nonproto_mail_number_witness :
  make_nonproto_mail (H := Samples.xeplib) (H0 := Samples.keep_lines)
    (H1 := Registry.registry)
    Action.NEW (Samples.protoxep "sample")
  = Raise KeyError.
Proof.
  apply (proj1 (make_nonproto_mail_number (H := Samples.xeplib)
                  (H0 := Samples.keep_lines) (H1 := Registry.registry)
                  Action.NEW (Samples.protoxep "sample"))).
  reflexivity.
Defined.

Lemma decompose_version_length_witness :
  exists d, decompose_version (Some "1.2") = Ok d /\ length d = 3%nat.
Proof.
  destruct (decompose_version_length "1.2") as (d & Hd & Hlen & _).
  exists d. split; [exact Hd|exact Hlen].
Defined.
